(** * The logical-date dependency of a task instance

    A shallow embedding of [RunnableExecDateDep._get_dep_statuses]
    (airflow-core/src/airflow/ti_deps/deps/runnable_exec_date_dep.py) and of
    the parts of Python's [datetime] the method relies on: the ordering of
    two datetimes (which raises [TypeError] when one is naive and the other
    aware) and [isoformat].  The method is a generator; a call is modelled by
    the statuses it yields, in order, together with the way it ends. *)

From Stdlib Require Import ZArith List String Ascii Bool Lia.
Import ListNotations.

Local Open Scope string_scope.
Local Open Scope Z_scope.

(** ** Python exceptions and results *)

Inductive exn : Type :=
| TypeError (msg : string)
| NoResultFound.

Definition result (A : Type) : Type := (exn + A)%type.

(** ** Python's [datetime] *)

Module PyDatetime.

(** A zone object.  [UTC] is the one object [timezone.utc], the zone
    [utcnow] attaches.  Any other zone object is identified by [id]; [offset]
    is the offset east of UTC, in microseconds (the [timedelta] that
    [utcoffset] returns), that the object reports for the datetime carrying
    it: a zone with daylight saving time reports different offsets for
    different datetimes. *)
Inductive tzinfo : Type :=
| UTC
| Zone (id : nat) (name : string) (offset : Z).

Definition tz_name (tz : tzinfo) : string :=
  match tz with
  | UTC => "UTC"
  | Zone _ name _ => name
  end.

Definition tz_utcoffset (tz : tzinfo) : Z :=
  match tz with
  | UTC => 0
  | Zone _ _ offset => offset
  end.

Record datetime : Type := mk_datetime {
  year : Z;
  month : Z;
  day : Z;
  hour : Z;
  minute : Z;
  second : Z;
  microsecond : Z;
  dt_tzinfo : option tzinfo
}.

Definition utc : tzinfo := UTC.

Definition utcoffset (d : datetime) : option Z :=
  option_map tz_utcoffset (dt_tzinfo d).

Definition replace_tzinfo (d : datetime) (tz : option tzinfo) : datetime :=
  mk_datetime (year d) (month d) (day d) (hour d) (minute d) (second d)
              (microsecond d) tz.

(** [mytz is ottz]: both absent, or one and the same zone object. *)
Definition tzinfo_is (a b : option tzinfo) : bool :=
  match a, b with
  | None, None => true
  | Some UTC, Some UTC => true
  | Some (Zone i _ _), Some (Zone j _ _) => Nat.eqb i j
  | _, _ => false
  end.

(** [myoff == otoff] on optional timedeltas. *)
Definition offset_eqb (a b : option Z) : bool :=
  match a, b with
  | None, None => true
  | Some x, Some y => x =? y
  | _, _ => false
  end.

(** *** Ordinals *)

Definition _is_leap (y : Z) : bool :=
  (y mod 4 =? 0) && (negb (y mod 100 =? 0) || (y mod 400 =? 0)).

Definition _days_before_year (y : Z) : Z :=
  let y1 := y - 1 in
  y1 * 365 + y1 / 4 - y1 / 100 + y1 / 400.

Definition _DAYS_BEFORE_MONTH : list Z :=
  [-1; 0; 31; 59; 90; 120; 151; 181; 212; 243; 273; 304; 334].

Definition _days_before_month (y m : Z) : Z :=
  nth (Z.to_nat m) _DAYS_BEFORE_MONTH 0
  + (if (2 <? m) && _is_leap y then 1 else 0).

Definition _ymd2ord (y m d : Z) : Z :=
  _days_before_year y + _days_before_month y m + d.

Definition toordinal (d : datetime) : Z :=
  _ymd2ord (year d) (month d) (day d).

(** *** Comparison *)

(** [_cmp(x, y)] on tuples of integers: [0 if x == y else 1 if x > y else -1]. *)
Fixpoint tuple_cmp (x y : list Z) : Z :=
  match x, y with
  | [], [] => 0
  | [], _ :: _ => -1
  | _ :: _, [] => 1
  | a :: x', b :: y' =>
      if a <? b then -1 else if b <? a then 1 else tuple_cmp x' y'
  end.

Definition fields (d : datetime) : list Z :=
  [year d; month d; day d; hour d; minute d; second d; microsecond d].

(** [self - other] for two datetimes whose offsets are known: a
    [timedelta], kept as its total number of microseconds. *)
Definition sub_base (a b : datetime) : Z :=
  let days := toordinal a - toordinal b in
  let secs1 := second a + minute a * 60 + hour a * 3600 in
  let secs2 := second b + minute b * 60 + hour b * 3600 in
  (days * 86400 + (secs1 - secs2)) * 1000000 + (microsecond a - microsecond b).

Definition naive_aware_msg : string :=
  "can't compare offset-naive and offset-aware datetimes".

(** [datetime._cmp(self, other)] with [allow_mixed=False]. *)
Definition _cmp (self other : datetime) : result Z :=
  let myoff := utcoffset self in
  let otoff := utcoffset other in
  let base_compare :=
    if tzinfo_is (dt_tzinfo self) (dt_tzinfo other) then true
    else offset_eqb myoff otoff in
  if base_compare then inr (tuple_cmp (fields self) (fields other))
  else
    match myoff, otoff with
    | Some mo, Some oo =>
        let diff := sub_base self other + oo - mo in
        (* diff.days < 0, then [diff and 1 or 0] *)
        if diff <? 0 then inr (-1)
        else if diff =? 0 then inr 0 else inr 1
    | _, _ => inl (TypeError naive_aware_msg)
    end.

(** [self > other]. *)
Definition gt (self other : datetime) : result bool :=
  match _cmp self other with
  | inl e => inl e
  | inr c => inr (0 <? c)
  end.

(** *** [isoformat] *)

Definition digit_char (d : Z) : ascii :=
  ascii_of_nat (48 + Z.to_nat d).

(** The decimal digits of a non-negative integer, most significant first. *)
Fixpoint digits_fuel (fuel : nat) (n : Z) (acc : string) : string :=
  match fuel with
  | O => acc
  | S fuel' =>
      let acc' := String (digit_char (n mod 10)) acc in
      if n / 10 =? 0 then acc' else digits_fuel fuel' (n / 10) acc'
  end.

Definition digits (n : Z) : string :=
  digits_fuel (S (Z.to_nat (Z.log2 n))) n "".

Fixpoint zeros (k : nat) : string :=
  match k with
  | O => ""
  | S k' => String "0" (zeros k')
  end.

(** ["%0<w>d" % n]. *)
Definition fmt_d (w : nat) (n : Z) : string :=
  if n <? 0 then
    let ds := digits (- n) in
    String "-" (zeros (w - 1 - String.length ds) ++ ds)
  else
    let ds := digits n in
    zeros (w - String.length ds) ++ ds.

(** [_format_time(hh, mm, ss, us, timespec='auto')]. *)
Definition _format_time (hh mm ss us : Z) : string :=
  if us =? 0 then
    fmt_d 2 hh ++ ":" ++ fmt_d 2 mm ++ ":" ++ fmt_d 2 ss
  else
    fmt_d 2 hh ++ ":" ++ fmt_d 2 mm ++ ":" ++ fmt_d 2 ss ++ "." ++ fmt_d 6 us.

(** [_format_offset(off)]: the offset is a timedelta in microseconds. *)
Definition _format_offset (off : option Z) : string :=
  match off with
  | None => ""
  | Some o =>
      let sign := if o <? 0 then "-" else "+" in
      let a := Z.abs o in
      let hh := a / 3600000000 in
      let r := a mod 3600000000 in
      let mm := r / 60000000 in
      let ss := r mod 60000000 in
      sign ++ fmt_d 2 hh ++ ":" ++ fmt_d 2 mm ++
      (if ss =? 0 then ""
       else ":" ++ fmt_d 2 (ss / 1000000) ++
            (if ss mod 1000000 =? 0 then ""
             else "." ++ fmt_d 6 (ss mod 1000000)))
  end.

Definition isoformat (d : datetime) : string :=
  fmt_d 4 (year d) ++ "-" ++ fmt_d 2 (month d) ++ "-" ++ fmt_d 2 (day d) ++ "T"
  ++ _format_time (hour d) (minute d) (second d) (microsecond d)
  ++ _format_offset (utcoffset d).

(** The ranges the constructor of [datetime] enforces. *)
Definition valid (d : datetime) : Prop :=
  1 <= year d <= 9999 /\ 1 <= month d <= 12 /\ 1 <= day d <= 31 /\
  0 <= hour d <= 23 /\ 0 <= minute d <= 59 /\ 0 <= second d <= 59 /\
  0 <= microsecond d <= 999999 /\
  match utcoffset d with
  | None => True
  | Some o => - 86400000000 < o < 86400000000
  end.

End PyDatetime.

Import PyDatetime.

(** ** Generators

    A generator call is observed through the values it yields, in order, and
    the way it ends: by returning, or by raising an exception that reaches
    the consumer after the values yielded before it. *)

Module Gen.
Section Gen.
Variable Y : Type.

Record run (A : Type) : Type := mk_run {
  yielded : list Y;
  outcome : result A
}.
Arguments mk_run {A}.
Arguments yielded {A}.
Arguments outcome {A}.

Definition ret {A} (a : A) : run A := mk_run [] (inr a).

Definition raise {A} (e : exn) : run A := mk_run [] (inl e).

Definition yield (y : Y) : run unit := mk_run [y] (inr tt).

(** A fallible expression evaluated inside the generator body. *)
Definition lift {A} (r : result A) : run A := mk_run [] r.

Definition bind {A B} (m : run A) (f : A -> run B) : run B :=
  match outcome m with
  | inl e => mk_run (yielded m) (inl e)
  | inr a =>
      let k := f a in
      mk_run (yielded m ++ yielded k)%list (outcome k)
  end.

(** [if c: body]. *)
Definition when (c : bool) (body : run unit) : run unit :=
  if c then body else ret tt.

End Gen.
End Gen.

Arguments Gen.mk_run {Y A}.
Arguments Gen.yielded {Y A}.
Arguments Gen.outcome {Y A}.
Arguments Gen.ret {Y A}.
Arguments Gen.raise {Y A}.
Arguments Gen.yield {Y}.
Arguments Gen.lift {Y A}.
Arguments Gen.bind {Y A B}.
Arguments Gen.when {Y}.

Notation "x <- m ;; k" := (Gen.bind m (fun x => k))
  (at level 61, m at next level, right associativity).
Notation "m ;;; k" := (Gen.bind m (fun _ => k))
  (at level 61, right associativity).

(** ** The objects the dependency reads *)

Module DAG.
Record t : Type := mk {
  dag_id : string;
  end_date : option datetime
}.
End DAG.

Module BaseOperator.
Record t : Type := mk {
  task_id : string;
  end_date : option datetime;
  dag : option DAG.t
}.
End BaseOperator.

Module DagRun.
Record t : Type := mk {
  dag_id : string;
  run_id : string;
  logical_date : option datetime
}.
End DagRun.

Module TaskInstance.
Record t : Type := mk {
  dag_id : string;
  run_id : string;
  try_number : Z;
  task : BaseOperator.t
}.
End TaskInstance.

(** The rows of the [dag_run] table a database session can see. *)
Definition Session : Type := list DagRun.t.

(** Modelled from the spec: [TaskInstance.get_dagrun] is not part of the
    sources at hand.  Section 6 describes it as a read of the owning run
    through the data-access scope, which "may fail if the run record no
    longer exists"; the run is looked up by the identifiers the task
    instance carries. *)
Definition get_dagrun (ti : TaskInstance.t) (session : Session) : result DagRun.t :=
  match find (fun dr => String.eqb (DagRun.dag_id dr) (TaskInstance.dag_id ti)
                        && String.eqb (DagRun.run_id dr) (TaskInstance.run_id ti))
             session with
  | Some dr => inr dr
  | None => inl NoResultFound
  end.

(** Modelled from the spec: [timezone.utcnow] is not part of the sources at
    hand.  Section 6: "Clock.now_utc() -> timestamp: ... always
    UTC-normalized".  The clock is its wall reading in UTC; [utcnow] returns
    it as a datetime aware of the UTC zone. *)
Definition Clock : Type := datetime.

Definition utcnow (clock : Clock) : datetime :=
  replace_tzinfo clock (Some utc).

(** Modelled from the spec: the status type and [_failing_status] belong to
    the base class, which is not part of the sources at hand.  Section 3:
    "DependencyStatus: immutable value -- passed: boolean, reason: text". *)
Record TIDepStatus : Type := mk_status {
  passed : bool;
  reason : string
}.

Definition _failing_status (reason : string) : TIDepStatus :=
  mk_status false reason.

(** Modelled from the spec: the flags of the dependency context (Section 3:
    "ignore state", "ignore depends-on-past"); the method receives the
    context and never reads it. *)
Record DepContext : Type := mk_dep_context {
  ignore_ti_state : bool;
  ignore_depends_on_past : bool
}.

(** ** [RunnableExecDateDep] *)

Module RunnableExecDateDep.

Definition NAME : string := "Logical Date".
Definition IGNORABLE : bool := true.

Definition future_reason (logical_date cur_date : datetime) : string :=
  "Logical date " ++ isoformat logical_date ++ " is in the future "
  ++ "(the current date is " ++ isoformat cur_date ++ ").".

Definition task_end_reason (logical_date end_date : datetime) : string :=
  "The logical date is " ++ isoformat logical_date ++ " but this is "
  ++ "after the task's end date " ++ isoformat end_date ++ ".".

Definition dag_end_reason (logical_date end_date : datetime) : string :=
  "The logical date is " ++ isoformat logical_date ++ " but this is after "
  ++ "the task's DAG's end date " ++ isoformat end_date ++ ".".

(** [if logical_date > cur_date: yield ...] *)
Definition check_future (logical_date cur_date : datetime) : Gen.run TIDepStatus unit :=
  c <- Gen.lift (gt logical_date cur_date) ;;
  Gen.when c (Gen.yield (_failing_status (future_reason logical_date cur_date))).

(** [if ti.task.end_date and logical_date > ti.task.end_date: yield ...]
    A datetime is always truthy, [None] is falsy, and [and] evaluates its
    right operand only when the left one is truthy. *)
Definition check_task_end (logical_date : datetime) (task : BaseOperator.t)
  : Gen.run TIDepStatus unit :=
  match BaseOperator.end_date task with
  | None => Gen.ret tt
  | Some e =>
      c <- Gen.lift (gt logical_date e) ;;
      Gen.when c (Gen.yield (_failing_status (task_end_reason logical_date e)))
  end.

(** [if ti.task.dag and ti.task.dag.end_date
        and logical_date > ti.task.dag.end_date: yield ...]
    A DAG object is truthy; a task without a DAG has [None] there. *)
Definition check_dag_end (logical_date : datetime) (task : BaseOperator.t)
  : Gen.run TIDepStatus unit :=
  match BaseOperator.dag task with
  | None => Gen.ret tt
  | Some d =>
      match DAG.end_date d with
      | None => Gen.ret tt
      | Some e =>
          c <- Gen.lift (gt logical_date e) ;;
          Gen.when c (Gen.yield (_failing_status (dag_end_reason logical_date e)))
      end
  end.

(** The method: the run's logical date is read through the session, the
    call returns at once when it is [None], and otherwise reads the clock
    and makes the three checks in turn. *)
Definition _get_dep_statuses (clock : Clock) (ti : TaskInstance.t)
    (session : Session) (dep_context : DepContext) : Gen.run TIDepStatus unit :=
  dr <- Gen.lift (get_dagrun ti session) ;;
  match DagRun.logical_date dr with
  | None => Gen.ret tt
  | Some logical_date =>
      let cur_date := utcnow clock in
      check_future logical_date cur_date ;;;
      check_task_end logical_date (TaskInstance.task ti) ;;;
      check_dag_end logical_date (TaskInstance.task ti)
  end.

End RunnableExecDateDep.

Import RunnableExecDateDep.

(** Modelled from the spec: [is_met] belongs to the base class, which is not
    part of the sources at hand.  Section 4.4: it "returns true iff no
    dependency yields a failing status" and "MAY stop at the first
    disqualifying failure"; here for this dependency alone, consuming one
    call of the generator. *)
Definition is_met (r : Gen.run TIDepStatus unit) : result bool :=
  if existsb (fun s => negb (passed s)) (Gen.yielded r) then inr false
  else match Gen.outcome r with
       | inl e => inl e
       | inr _ => inr true
       end.

(** ** Vocabulary of the properties *)

(** A comparison [a > b] that was evaluated and found true. *)
Definition holds (c : result bool) : bool :=
  match c with
  | inr true => true
  | _ => false
  end.

(** The condition of each of the three checks. *)
Definition future_cond (logical_date cur_date : datetime) : bool :=
  holds (gt logical_date cur_date).

Definition task_end_cond (logical_date : datetime) (task : BaseOperator.t) : bool :=
  match BaseOperator.end_date task with
  | Some e => holds (gt logical_date e)
  | None => false
  end.

(** The end date of the owning DAG, when the task has a DAG and the DAG has
    an end date. *)
Definition dag_end_date (task : BaseOperator.t) : option datetime :=
  match BaseOperator.dag task with
  | Some d => DAG.end_date d
  | None => None
  end.

Definition dag_end_cond (logical_date : datetime) (task : BaseOperator.t) : bool :=
  match dag_end_date task with
  | Some e => holds (gt logical_date e)
  | None => false
  end.

Definition conditions_holding (logical_date cur_date : datetime)
    (task : BaseOperator.t) : nat :=
  (Nat.b2n (future_cond logical_date cur_date)
   + Nat.b2n (task_end_cond logical_date task)
   + Nat.b2n (dag_end_cond logical_date task))%nat.

(** The status each check produces. *)
Definition future_status (logical_date cur_date : datetime) : TIDepStatus :=
  _failing_status (future_reason logical_date cur_date).

Definition task_end_status (logical_date end_date : datetime) : TIDepStatus :=
  _failing_status (task_end_reason logical_date end_date).

Definition dag_end_status (logical_date end_date : datetime) : TIDepStatus :=
  _failing_status (dag_end_reason logical_date end_date).

(** One status per check whose condition holds, in the order of the checks. *)
Definition expected_statuses (logical_date cur_date : datetime)
    (task : BaseOperator.t) : list TIDepStatus :=
  ((if future_cond logical_date cur_date
    then [future_status logical_date cur_date] else [])
   ++ match BaseOperator.end_date task with
      | Some e => if holds (gt logical_date e)
                  then [task_end_status logical_date e] else []
      | None => []
      end
   ++ match dag_end_date task with
      | Some e => if holds (gt logical_date e)
                  then [dag_end_status logical_date e] else []
      | None => []
      end)%list.

(** Timezone awareness, and a comparison of an aware with a naive datetime. *)
Definition is_aware (d : datetime) : bool :=
  match utcoffset d with
  | Some _ => true
  | None => false
  end.

Definition mismatch (a b : datetime) : bool :=
  xorb (is_aware a) (is_aware b).

Definition mismatch_opt (a : datetime) (b : option datetime) : bool :=
  match b with
  | Some e => mismatch a e
  | None => false
  end.

(** *** Substrings *)

Fixpoint contains_fuel (fuel : nat) (needle hay : string) : bool :=
  if String.prefix needle hay then true
  else match fuel, hay with
       | S fuel', String _ hay' => contains_fuel fuel' needle hay'
       | _, _ => false
       end.

Definition contains (needle hay : string) : bool :=
  contains_fuel (String.length hay) needle hay.

(** *** The wording the specification gives for the three reasons

    These three follow the words of the specification (Section 4.2), not the
    code; they are compared with the reasons the code builds. *)
Definition spec_future_wording (cur_date : datetime) : string :=
  "logical date is in the future (current date is " ++ isoformat cur_date ++ ").".

Definition spec_task_end_wording : string :=
  "logical date is after the task's end date.".

Definition spec_dag_end_wording : string :=
  "logical date is after the workflow's end date.".

Definition matches_spec_wording (cur_date : datetime) (s : TIDepStatus) : bool :=
  contains (spec_future_wording cur_date) (reason s)
  || contains spec_task_end_wording (reason s)
  || contains spec_dag_end_wording (reason s).

(** *** A recogniser of the ISO-8601 form [isoformat] writes:
    [YYYY-MM-DDTHH:MM:SS[.ffffff][(+|-)HH:MM[:SS[.ffffff]]]]. *)

Definition is_digit (c : ascii) : bool :=
  let n := nat_of_ascii c in (48 <=? n)%nat && (n <=? 57)%nat.

Fixpoint eat_digits (k : nat) (s : string) : option string :=
  match k with
  | O => Some s
  | S k' =>
      match s with
      | String c s' => if is_digit c then eat_digits k' s' else None
      | EmptyString => None
      end
  end.

Definition eat_char (c : ascii) (s : string) : option string :=
  match s with
  | String c' s' => if Ascii.eqb c c' then Some s' else None
  | EmptyString => None
  end.

Definition obind {A B} (o : option A) (f : A -> option B) : option B :=
  match o with
  | Some a => f a
  | None => None
  end.

(** An optional [.ffffff]. *)
Definition eat_fraction (s : string) : option string :=
  match eat_char "." s with
  | Some s' => eat_digits 6 s'
  | None => Some s
  end.

(** [HH:MM:SS[.ffffff]] *)
Definition eat_time (s : string) : option string :=
  obind (obind (obind (obind (obind (eat_digits 2 s) (eat_char ":"))
    (eat_digits 2)) (eat_char ":")) (eat_digits 2)) eat_fraction.

(** An optional [(+|-)HH:MM[:SS[.ffffff]]], up to the end of the string. *)
Definition is_offset (s : string) : bool :=
  match s with
  | EmptyString => true
  | String c s' =>
      if Ascii.eqb c "+" || Ascii.eqb c "-" then
        match obind (obind (eat_digits 2 s') (eat_char ":")) (eat_digits 2) with
        | Some EmptyString => true
        | Some s'' =>
            match obind (obind (eat_char ":" s'') (eat_digits 2)) eat_fraction with
            | Some EmptyString => true
            | _ => false
            end
        | None => false
        end
      else false
  end.

Definition is_iso8601 (s : string) : bool :=
  match
    obind (obind (obind (obind (obind (obind
      (eat_digits 4 s) (eat_char "-")) (eat_digits 2)) (eat_char "-"))
      (eat_digits 2)) (eat_char "T")) eat_time
  with
  | Some rest => is_offset rest
  | None => false
  end.

(** The strings made of digits only. *)
Fixpoint all_digits (s : string) : bool :=
  match s with
  | EmptyString => true
  | String c s' => is_digit c && all_digits s'
  end.

(** The number a string of decimal digits denotes, continuing from [acc]. *)
Fixpoint digits_value (s : string) (acc : Z) : Z :=
  match s with
  | EmptyString => acc
  | String c s' => digits_value s' (acc * 10 + (Z.of_nat (nat_of_ascii c) - 48))
  end.

(** *** What it is for a call to yield the status of a given check *)

Definition yields_future (L C : datetime) (r : Gen.run TIDepStatus unit) : Prop :=
  In (mk_status false
        ("Logical date " ++ isoformat L
         ++ " is in the future (the current date is " ++ isoformat C ++ ")."))
     (Gen.yielded r).

Definition yields_task_end (L : datetime) (task : BaseOperator.t)
    (r : Gen.run TIDepStatus unit) : Prop :=
  exists e,
    BaseOperator.end_date task = Some e /\
    In (mk_status false
          ("The logical date is " ++ isoformat L
           ++ " but this is after the task's end date " ++ isoformat e ++ "."))
       (Gen.yielded r).

Definition yields_dag_end (L : datetime) (task : BaseOperator.t)
    (r : Gen.run TIDepStatus unit) : Prop :=
  exists d e,
    BaseOperator.dag task = Some d /\ DAG.end_date d = Some e /\
    In (mk_status false
          ("The logical date is " ++ isoformat L
           ++ " but this is after the task's DAG's end date " ++ isoformat e ++ "."))
       (Gen.yielded r).

(** ** Concrete inputs *)

Module Examples.

Definition aware (y mo d : Z) : datetime := mk_datetime y mo d 0 0 0 0 (Some utc).
Definition naive (y mo d : Z) : datetime := mk_datetime y mo d 0 0 0 0 None.

Definition ctx : DepContext := mk_dep_context false false.

Definition ti_of (task : BaseOperator.t) : TaskInstance.t :=
  TaskInstance.mk "etl" "scheduled__1" 1 task.

Definition session_of (logical_date : option datetime) : Session :=
  [DagRun.mk "other" "scheduled__1" None;
   DagRun.mk "etl" "scheduled__1" logical_date].

Definition run_of (logical_date : option datetime) : DagRun.t :=
  DagRun.mk "etl" "scheduled__1" logical_date.

(** Scenario 2 of the specification: logical date 2023-01-01T00:00:00Z,
    task end date 2022-01-01T00:00:00Z, no DAG end date, and the clock at
    2023-06-01T00:00:00Z. *)
Definition scenario2_task : BaseOperator.t :=
  BaseOperator.mk "load" (Some (aware 2022 1 1)) (Some (DAG.mk "etl" None)).
Definition scenario2_clock : Clock := naive 2023 6 1.

(** Scenario 1 of the specification: a logical date in the future of the
    clock, and no end date on the task or on its DAG. *)
Definition plain_task : BaseOperator.t :=
  BaseOperator.mk "load" None (Some (DAG.mk "etl" None)).

(** All three checks fire: the clock at 2022-06-01, the task's end date
    2021-01-01 and the DAG's end date 2020-01-01, all before the logical
    date 2023-01-01. *)
Definition all_three_task : BaseOperator.t :=
  BaseOperator.mk "load" (Some (aware 2021 1 1))
                  (Some (DAG.mk "etl" (Some (aware 2020 1 1)))).
Definition all_three_clock : Clock := naive 2022 6 1.

(** An aware logical date in the future of the clock, a naive task end
    date, and an aware DAG end date before the logical date. *)
Definition naive_task_end_task : BaseOperator.t :=
  BaseOperator.mk "load" (Some (naive 2022 1 1))
                  (Some (DAG.mk "etl" (Some (aware 2022 1 1)))).

(** A naive logical date after a naive DAG end date; no task end date. *)
Definition naive_dag_end_task : BaseOperator.t :=
  BaseOperator.mk "load" None (Some (DAG.mk "etl" (Some (naive 2022 1 1)))).

(** A task without a DAG, with an aware end date. *)
Definition no_dag_task : BaseOperator.t :=
  BaseOperator.mk "load" (Some (aware 2022 1 1)) None.

End Examples.

(** ** Further vocabulary *)

(** Every timestamp a call compares is timezone-aware. *)
Definition aware_opt (d : option datetime) : bool :=
  match d with
  | Some e => is_aware e
  | None => true
  end.

Definition all_aware (logical_date : datetime) (task : BaseOperator.t) : bool :=
  is_aware logical_date
  && aware_opt (BaseOperator.end_date task)
  && aware_opt (dag_end_date task).

(** The logical date is not after an optional bound: there is no bound, or
    the comparison was evaluated and found false. *)
Definition within (logical_date : datetime) (bound : option datetime) : Prop :=
  match bound with
  | Some e => gt logical_date e = inr false
  | None => True
  end.

(** The statuses of the future-date check and of the task end-date check,
    when their conditions hold. *)
Definition future_part (logical_date cur_date : datetime) : list TIDepStatus :=
  if future_cond logical_date cur_date
  then [future_status logical_date cur_date] else [].

Definition task_end_part (logical_date : datetime) (task : BaseOperator.t)
    : list TIDepStatus :=
  match BaseOperator.end_date task with
  | Some e => if holds (gt logical_date e)
              then [task_end_status logical_date e] else []
  | None => []
  end.

(** A string without a space character. *)
Fixpoint no_space (s : string) : bool :=
  match s with
  | EmptyString => true
  | String c s' => negb (Ascii.eqb c " ") && no_space s'
  end.

(** *** Instants

    [_days_in_month] and the check the constructor of [datetime] makes on
    the day, which [valid] leaves out; and the instant a datetime denotes,
    in microseconds of UTC (of its own wall clock when it is naive). *)
Definition _DAYS_IN_MONTH : list Z :=
  [-1; 31; 28; 31; 30; 31; 30; 31; 31; 30; 31; 30; 31].

Definition _days_in_month (y m : Z) : Z :=
  if (m =? 2) && _is_leap y then 29 else nth (Z.to_nat m) _DAYS_IN_MONTH 0.

Definition well_formed (d : datetime) : Prop :=
  valid d /\ day d <= _days_in_month (year d) (month d).

Definition wall_instant (d : datetime) : Z :=
  (toordinal d * 86400 + hour d * 3600 + minute d * 60 + second d) * 1000000
  + microsecond d.

Definition utc_instant (d : datetime) : Z :=
  wall_instant d - match utcoffset d with
                   | Some o => o
                   | None => 0
                   end.

(** An optional bound that, when present, is timezone-aware and
    well-formed. *)
Definition aware_bound (bound : option datetime) : Prop :=
  match bound with
  | Some e => is_aware e = true /\ well_formed e
  | None => True
  end.

(** An optional bound strictly before the logical date, as instants. *)
Definition before (bound : option datetime) (logical_date : datetime) : bool :=
  match bound with
  | Some e => utc_instant e <? utc_instant logical_date
  | None => false
  end.

Definition dag_end_part (logical_date : datetime) (task : BaseOperator.t)
    : list TIDepStatus :=
  match dag_end_date task with
  | Some e => if holds (gt logical_date e)
              then [dag_end_status logical_date e] else []
  | None => []
  end.

(** One status per bound that is a strictly earlier instant than the
    logical date: the clock reading, the task's end date, the DAG's end
    date. *)
Definition statuses_by_instant (logical_date cur_date : datetime)
    (task : BaseOperator.t) : list TIDepStatus :=
  ((if utc_instant cur_date <? utc_instant logical_date
    then [future_status logical_date cur_date] else [])
   ++ match BaseOperator.end_date task with
      | Some e => if utc_instant e <? utc_instant logical_date
                  then [task_end_status logical_date e] else []
      | None => []
      end
   ++ match dag_end_date task with
      | Some e => if utc_instant e <? utc_instant logical_date
                  then [dag_end_status logical_date e] else []
      | None => []
      end)%list.

(** The statuses of the three checks in order, up to the first comparison
    that raises: none for a naive logical date, only that of the future-date
    check for a naive task end date.  (A check whose own comparison raises
    contributes nothing.) *)
Definition statuses_until_error (logical_date cur_date : datetime)
    (task : BaseOperator.t) : list TIDepStatus :=
  if is_aware logical_date then
    (future_part logical_date cur_date
     ++ (if aware_opt (BaseOperator.end_date task)
         then task_end_part logical_date task ++ dag_end_part logical_date task
         else []))%list
  else [].

(** Two datetimes that, when they carry one and the same zone object, have
    the same offset from it.  Fixed-offset zones, and UTC in particular,
    always give coherent pairs; a zone with daylight saving time gives an
    incoherent pair across a change of offset. *)
Definition coherent (a b : datetime) : Prop :=
  tzinfo_is (dt_tzinfo a) (dt_tzinfo b) = true -> utcoffset a = utcoffset b.

Definition coherent_bound (logical_date : datetime) (bound : option datetime)
    : Prop :=
  match bound with
  | Some e => coherent logical_date e
  | None => True
  end.

(** Concrete inputs written in several zones. *)
Module Zones.

Definition cet : tzinfo := Zone 1 "+01:00" 3600000000.

(** 2023-01-01T01:00:00+01:00, the same instant as 2023-01-01T00:00:00Z. *)
Definition new_year_cet : datetime := mk_datetime 2023 1 1 1 0 0 0 (Some cet).

(** 2023-01-01T00:30:00+01:00, that is 2022-12-31T23:30:00Z: its fields are
    after those of 2022-12-31T23:45:00Z, the instant is before. *)
Definition before_new_year_cet : datetime :=
  mk_datetime 2023 1 1 0 30 0 0 (Some cet).

(** A task whose end date and whose DAG's end date are 2023-01-01T00:00:00Z. *)
Definition new_year_task : BaseOperator.t :=
  BaseOperator.mk "load" (Some (Examples.aware 2023 1 1))
                  (Some (DAG.mk "etl" (Some (Examples.aware 2023 1 1)))).

(** A task whose end date is 2022-12-31T23:45:00Z, with no DAG end date. *)
Definition new_year_eve_task : BaseOperator.t :=
  BaseOperator.mk "load" (Some (mk_datetime 2022 12 31 23 45 0 0 (Some utc)))
                  (Some (DAG.mk "etl" None)).

(** One zone object, "Europe/Warsaw", on the night daylight saving time
    ends: 02:30 at +01:00 (01:30Z) and 02:45 at +02:00 (00:45Z). *)
Definition warsaw_0230_cet : datetime :=
  mk_datetime 2023 10 29 2 30 0 0 (Some (Zone 7 "Europe/Warsaw" 3600000000)).

Definition warsaw_0245_cest : datetime :=
  mk_datetime 2023 10 29 2 45 0 0 (Some (Zone 7 "Europe/Warsaw" 7200000000)).

End Zones.

Arguments isoformat : simpl never.
Arguments gt : simpl never.
Arguments future_reason : simpl never.
Arguments task_end_reason : simpl never.
Arguments dag_end_reason : simpl never.

(** ** Properties *)

Section Strings.

Lemma append_assoc (a b c : string) : (a ++ b) ++ c = a ++ (b ++ c).
Proof. induction a as [|x a IH]; simpl; [reflexivity | now rewrite IH]. Qed.

Lemma append_inv_head (a b c : string) : a ++ b = a ++ c -> b = c.
Proof.
  induction a as [|x a IH]; simpl; intros H; [exact H |].
  injection H as H. now apply IH.
Qed.

End Strings.

(** The three reasons are pairwise different, whatever the timestamps. *)
Lemma future_task_reason_neq L C L' e : future_reason L C <> task_end_reason L' e.
Proof. unfold future_reason, task_end_reason. simpl. discriminate. Qed.

Lemma future_dag_reason_neq L C L' e : future_reason L C <> dag_end_reason L' e.
Proof. unfold future_reason, dag_end_reason. simpl. discriminate. Qed.

Lemma task_dag_reason_neq L e e' : task_end_reason L e <> dag_end_reason L e'.
Proof.
  unfold task_end_reason, dag_end_reason. intros H.
  apply (append_inv_head "The logical date is ") in H.
  apply append_inv_head in H.
  simpl in H. discriminate H.
Qed.

Lemma run_eta {Y A} (k : Gen.run Y A) :
  Gen.mk_run (Gen.yielded k) (Gen.outcome k) = k.
Proof. destruct k; reflexivity. Qed.

Lemma bind_lift_ok {Y A B} (a : A) (f : A -> Gen.run Y B) :
  Gen.bind (Gen.lift (inr a)) f = f a.
Proof. unfold Gen.bind. simpl. apply run_eta. Qed.

Lemma bind_ret_r {Y} (m : Gen.run Y unit) :
  Gen.bind m (fun _ => Gen.ret tt) = m.
Proof.
  destruct m as [ys [e | []]]; unfold Gen.bind; cbn; [reflexivity |].
  now rewrite app_nil_r.
Qed.

Lemma bind_assoc {Y A B D} (m : Gen.run Y A) (f : A -> Gen.run Y B)
    (g : B -> Gen.run Y D) :
  Gen.bind (Gen.bind m f) g = Gen.bind m (fun a => Gen.bind (f a) g).
Proof.
  destruct m as [ys [e | a]]; unfold Gen.bind; cbn; [reflexivity |].
  destruct (f a) as [ys' [e | b]]; cbn; [reflexivity |].
  now rewrite app_assoc.
Qed.

Lemma bind_lift_err {Y A B} (e : exn) (f : A -> Gen.run Y B) :
  Gen.bind (Gen.lift (inl e)) f = Gen.raise e.
Proof. reflexivity. Qed.


(** *** The model on concrete values *)

Example isoformat_utc :
  isoformat (Examples.aware 2023 1 1) = "2023-01-01T00:00:00+00:00".
Proof. reflexivity. Qed.

Example isoformat_naive :
  isoformat (Examples.naive 2023 1 1) = "2023-01-01T00:00:00".
Proof. reflexivity. Qed.

Example isoformat_microsecond_offset :
  isoformat (mk_datetime 987 12 31 23 59 7 1500
               (Some (Zone 2 "-05:30" (-19800000000))))
  = "0987-12-31T23:59:07.001500-05:30".
Proof. reflexivity. Qed.

Example toordinal_2023 : toordinal (Examples.aware 2023 1 1) = 738521.
Proof. reflexivity. Qed.

Example toordinal_leap : toordinal (Examples.aware 2024 3 1) = 738946.
Proof. reflexivity. Qed.

Example gt_same_zone :
  gt (Examples.aware 2023 1 1) (Examples.aware 2022 1 1) = inr true.
Proof. reflexivity. Qed.

(** 01:00 at UTC+1 is the same instant as 00:00 UTC. *)
Example gt_across_zones :
  gt (mk_datetime 2023 1 1 1 0 0 0 (Some (Zone 1 "+01:00" 3600000000)))
     (Examples.aware 2023 1 1)
  = inr false.
Proof. reflexivity. Qed.

Example gt_naive_aware :
  gt (Examples.naive 2023 1 1) (Examples.aware 2022 1 1)
  = inl (TypeError naive_aware_msg).
Proof. reflexivity. Qed.

Example get_dagrun_missing :
  get_dagrun (TaskInstance.mk "etl" "manual__1" 1 Examples.plain_task)
             (Examples.session_of None)
  = inl NoResultFound.
Proof. reflexivity. Qed.

Example isoformat_odd_offset :
  isoformat (mk_datetime 2023 1 1 0 0 0 0
               (Some (Zone 3 "odd" (-19810000001))))
  = "2023-01-01T00:00:00-05:30:10.000001".
Proof. reflexivity. Qed.

Section Isoformat.

Lemma is_digit_digit_char (d : Z) : 0 <= d <= 9 -> is_digit (digit_char d) = true.
Proof.
  intros H. unfold is_digit, digit_char.
  rewrite nat_ascii_embedding by lia.
  apply andb_true_intro; split; apply Nat.leb_le; lia.
Qed.

Lemma mod10_digit (n : Z) : is_digit (digit_char (n mod 10)) = true.
Proof. apply is_digit_digit_char. pose proof (Z.mod_pos_bound n 10). lia. Qed.

Lemma digits_fuel_S (fuel : nat) (n : Z) (acc : string) :
  digits_fuel (S fuel) n acc
  = if n / 10 =? 0 then String (digit_char (n mod 10)) acc
    else digits_fuel fuel (n / 10) (String (digit_char (n mod 10)) acc).
Proof. reflexivity. Qed.

Lemma length_append (a b : string) :
  String.length (a ++ b) = (String.length a + String.length b)%nat.
Proof. induction a; simpl; [reflexivity | now rewrite IHa]. Qed.

Lemma append_nil_r (s : string) : s ++ "" = s.
Proof. induction s; simpl; [reflexivity | now rewrite IHs]. Qed.

Lemma all_digits_snoc (ds : string) (c : ascii) :
  all_digits ds = true -> is_digit c = true ->
  all_digits (ds ++ String c "") = true.
Proof.
  intros Hall Hc. induction ds as [|x ds IH]; cbn [append all_digits] in *.
  - now rewrite Hc.
  - apply andb_prop in Hall as [Hx Hall]. rewrite Hx. now apply IH.
Qed.

Lemma pow2_S (k : nat) : 2 ^ Z.of_nat (S k) = 2 * 2 ^ Z.of_nat k.
Proof. rewrite Nat2Z.inj_succ, Z.pow_succ_r by lia. reflexivity. Qed.

Lemma pow10_S (k : nat) : 10 ^ Z.of_nat (S k) = 10 * 10 ^ Z.of_nat k.
Proof. rewrite Nat2Z.inj_succ, Z.pow_succ_r by lia. reflexivity. Qed.

Lemma digits_fuel_spec (fuel : nat) :
  forall (n : Z) (acc : string),
    0 <= n < 2 ^ Z.of_nat (S fuel) ->
    exists ds,
      digits_fuel (S fuel) n acc = ds ++ acc /\
      all_digits ds = true /\
      (forall w : nat, n < 10 ^ Z.of_nat (S w) -> (String.length ds <= S w)%nat).
Proof.
  induction fuel as [|fuel IH]; intros n acc Hn; rewrite digits_fuel_S;
    pose proof (mod10_digit n) as Hd.
  - assert (Hq : n / 10 = 0).
    { apply Z.div_small. rewrite pow2_S in Hn. change (2 ^ Z.of_nat 0) with 1 in Hn. lia. }
    rewrite Hq. change (0 =? 0) with true. cbv iota.
    exists (String (digit_char (n mod 10)) ""). cbn [append all_digits String.length].
    rewrite Hd. repeat split. intros w _. lia.
  - destruct (Z.eqb_spec (n / 10) 0) as [Hq | Hq].
    + exists (String (digit_char (n mod 10)) ""). cbn [append all_digits String.length].
      rewrite Hd. repeat split. intros w _. lia.
    + assert (Hn' : 0 <= n / 10 < 2 ^ Z.of_nat (S fuel)).
      { split; [apply Z.div_pos; lia |].
        apply Z.div_lt_upper_bound; [lia |].
        rewrite pow2_S in Hn.
        pose proof (Z.pow_pos_nonneg 2 (Z.of_nat (S fuel))). lia. }
      destruct (IH (n / 10) (String (digit_char (n mod 10)) acc) Hn')
        as (ds & Hds & Hall & Hlen).
      exists (ds ++ String (digit_char (n mod 10)) "").
      rewrite Hds, append_assoc. cbn [append]. repeat split.
      * now apply all_digits_snoc.
      * intros w Hw. rewrite length_append. cbn [String.length].
        destruct w as [|w].
        -- exfalso. apply Hq. apply Z.div_small.
           rewrite pow10_S in Hw. change (10 ^ Z.of_nat 0) with 1 in Hw. lia.
        -- assert (Hq' : n / 10 < 10 ^ Z.of_nat (S w)).
           { apply Z.div_lt_upper_bound; [lia |].
             rewrite (pow10_S (S w)) in Hw. lia. }
           specialize (Hlen w Hq'). lia.
Qed.

Lemma digits_spec (n : Z) (w : nat) :
  0 <= n < 10 ^ Z.of_nat (S w) ->
  all_digits (digits n) = true /\ (String.length (digits n) <= S w)%nat.
Proof.
  intros Hn. unfold digits.
  assert (Hf : 0 <= n < 2 ^ Z.of_nat (S (Z.to_nat (Z.log2 n)))).
  { split; [lia |].
    rewrite Nat2Z.inj_succ, Z2Nat.id by apply Z.log2_nonneg.
    destruct (Z.eq_dec n 0) as [Hz | Hz].
    - subst n. reflexivity.
    - apply Z.log2_spec. lia. }
  destruct (digits_fuel_spec _ n "" Hf) as (ds & Hds & Hall & Hlen).
  rewrite Hds, append_nil_r. split; [exact Hall | apply Hlen; lia].
Qed.

(** The fuel [digits] gives itself is enough: the digits denote the number. *)
Lemma digits_fuel_value (fuel : nat) :
  forall (n : Z) (acc : string),
    0 <= n < 2 ^ Z.of_nat (S fuel) ->
    digits_value (digits_fuel (S fuel) n acc) 0 = digits_value acc n.
Proof.
  assert (Hdig : forall n acc a, 0 <= n ->
            digits_value (String (digit_char (n mod 10)) acc) a
            = digits_value acc (a * 10 + n mod 10)).
  { intros n acc a Hn. cbn [digits_value]. unfold digit_char.
    pose proof (Z.mod_pos_bound n 10).
    rewrite nat_ascii_embedding by lia. f_equal. lia. }
  induction fuel as [|fuel IH]; intros n acc Hn; rewrite digits_fuel_S.
  - assert (Hq : n / 10 = 0).
    { apply Z.div_small. rewrite pow2_S in Hn. change (2 ^ Z.of_nat 0) with 1 in Hn. lia. }
    rewrite Hq. change (0 =? 0) with true. cbv iota.
    rewrite Hdig by lia. f_equal.
    pose proof (Z.div_mod n 10). lia.
  - destruct (Z.eqb_spec (n / 10) 0) as [Hq | Hq].
    + rewrite Hdig by lia. f_equal. pose proof (Z.div_mod n 10). lia.
    + rewrite IH.
      * rewrite Hdig by lia. f_equal. pose proof (Z.div_mod n 10). lia.
      * split; [apply Z.div_pos; lia |].
        apply Z.div_lt_upper_bound; [lia |].
        rewrite pow2_S in Hn.
        pose proof (Z.pow_pos_nonneg 2 (Z.of_nat (S fuel))). lia.
Qed.

Lemma digits_denote (n : Z) : 0 <= n -> digits_value (digits n) 0 = n.
Proof.
  intros Hn. unfold digits. rewrite digits_fuel_value; [reflexivity |].
  split; [lia |].
  rewrite Nat2Z.inj_succ, Z2Nat.id by apply Z.log2_nonneg.
  destruct (Z.eq_dec n 0) as [Hz | Hz].
  - subst n. reflexivity.
  - apply Z.log2_spec. lia.
Qed.

Lemma eat_digits_zeros (k : nat) (s : string) :
  eat_digits k (zeros k ++ s) = Some s.
Proof. induction k; cbn [zeros append eat_digits]; [reflexivity | exact IHk]. Qed.

Lemma eat_digits_all (ds rest : string) :
  all_digits ds = true -> eat_digits (String.length ds) (ds ++ rest) = Some rest.
Proof.
  induction ds as [|c ds IH]; cbn [all_digits String.length append eat_digits];
    intros H; [reflexivity |].
  apply andb_prop in H as [Hc H]. rewrite Hc. now apply IH.
Qed.

Lemma eat_digits_app (a b : nat) (s : string) :
  eat_digits (a + b) s = obind (eat_digits a s) (eat_digits b).
Proof.
  revert s. induction a as [|a IH]; intros s; cbn [Nat.add eat_digits obind];
    [reflexivity |].
  destruct s as [|c s]; [reflexivity |].
  destruct (is_digit c); [apply IH | reflexivity].
Qed.

(** ["%0<w>d"] of a number of at most [w] digits is [w] digits. *)
Lemma eat_digits_fmt_d (w : nat) (n : Z) (rest : string) :
  0 <= n < 10 ^ Z.of_nat (S w) ->
  eat_digits (S w) (fmt_d (S w) n ++ rest) = Some rest.
Proof.
  intros Hn. unfold fmt_d.
  destruct (Z.ltb_spec n 0) as [Hneg | _]; [lia |].
  destruct (digits_spec n w Hn) as [Hall Hlen].
  rewrite append_assoc.
  replace (S w) with ((S w - String.length (digits n))
                      + String.length (digits n))%nat at 1 by lia.
  rewrite eat_digits_app, eat_digits_zeros. cbn [obind].
  now apply eat_digits_all.
Qed.

Lemma eat2 (n : Z) (rest : string) :
  0 <= n <= 99 -> eat_digits 2 (fmt_d 2 n ++ rest) = Some rest.
Proof. intros H. apply eat_digits_fmt_d. change (10 ^ Z.of_nat 2) with 100. lia. Qed.

Lemma eat4 (n : Z) (rest : string) :
  0 <= n <= 9999 -> eat_digits 4 (fmt_d 4 n ++ rest) = Some rest.
Proof. intros H. apply eat_digits_fmt_d. change (10 ^ Z.of_nat 4) with 10000. lia. Qed.

Lemma eat6 (n : Z) (rest : string) :
  0 <= n <= 999999 -> eat_digits 6 (fmt_d 6 n ++ rest) = Some rest.
Proof. intros H. apply eat_digits_fmt_d. change (10 ^ Z.of_nat 6) with 1000000. lia. Qed.

End Isoformat.

Section IsoformatShape.

Lemma eat_char_here (c : ascii) (rest : string) :
  eat_char c (String c rest) = Some rest.
Proof. cbn [eat_char]. now rewrite Ascii.eqb_refl. Qed.

Lemma eat_fraction_some (us : Z) (rest : string) :
  0 <= us <= 999999 ->
  eat_fraction (String "." (fmt_d 6 us ++ rest)) = Some rest.
Proof.
  intros H. unfold eat_fraction. rewrite eat_char_here. now apply eat6.
Qed.

Lemma eat_time_format (hh mm ss us : Z) (rest : string) :
  0 <= hh <= 23 -> 0 <= mm <= 59 -> 0 <= ss <= 59 -> 0 <= us <= 999999 ->
  eat_char "." rest = None ->
  eat_time (_format_time hh mm ss us ++ rest) = Some rest.
Proof.
  intros Hh Hm Hs Hu Hrest. unfold eat_time, _format_time.
  destruct (us =? 0); rewrite !append_assoc.
  - rewrite eat2 by lia. cbn [obind append]. rewrite eat_char_here. cbn [obind].
    rewrite eat2 by lia. cbn [obind append]. rewrite eat_char_here. cbn [obind].
    rewrite eat2 by lia. cbn [obind]. unfold eat_fraction. now rewrite Hrest.
  - rewrite eat2 by lia. cbn [obind append]. rewrite eat_char_here. cbn [obind].
    rewrite eat2 by lia. cbn [obind append]. rewrite eat_char_here. cbn [obind].
    rewrite eat2 by lia. cbn [obind].
    now apply eat_fraction_some.
Qed.

Lemma format_offset_no_dot (off : option Z) :
  eat_char "." (_format_offset off) = None.
Proof.
  destruct off as [o|]; [| reflexivity].
  unfold _format_offset. destruct (o <? 0); reflexivity.
Qed.

Lemma is_offset_format (off : option Z) :
  match off with
  | Some o => - 86400000000 < o < 86400000000
  | None => True
  end ->
  is_offset (_format_offset off) = true.
Proof.
  destruct off as [o|]; [| reflexivity]. intros Ho.
  unfold _format_offset.
  set (a := Z.abs o).
  assert (Ha : 0 <= a < 86400000000) by (unfold a; lia).
  set (r := a mod 3600000000).
  assert (Hr : 0 <= r < 3600000000) by (apply Z.mod_pos_bound; lia).
  set (ss := r mod 60000000).
  assert (Hss : 0 <= ss < 60000000) by (apply Z.mod_pos_bound; lia).
  assert (Hhh : 0 <= a / 3600000000 <= 23).
  { split; [apply Z.div_pos; lia |].
    apply Z.lt_succ_r. apply Z.div_lt_upper_bound; lia. }
  assert (Hmm : 0 <= r / 60000000 <= 59).
  { split; [apply Z.div_pos; lia |].
    apply Z.lt_succ_r. apply Z.div_lt_upper_bound; lia. }
  assert (Hs2 : 0 <= ss / 1000000 <= 59).
  { split; [apply Z.div_pos; lia |].
    apply Z.lt_succ_r. apply Z.div_lt_upper_bound; lia. }
  assert (Hus : 0 <= ss mod 1000000 <= 999999).
  { pose proof (Z.mod_pos_bound ss 1000000). lia. }
  assert (Hsign : forall s,
    is_offset ((if o <? 0 then "-" else "+") ++ s)
    = match obind (obind (eat_digits 2 s) (eat_char ":")) (eat_digits 2) with
      | Some EmptyString => true
      | Some s'' =>
          match obind (obind (eat_char ":" s'') (eat_digits 2)) eat_fraction with
          | Some EmptyString => true
          | _ => false
          end
      | None => false
      end).
  { intros s. destruct (o <? 0); reflexivity. }
  rewrite Hsign. rewrite eat2 by lia. cbn [obind append].
  rewrite eat_char_here. cbn [obind]. rewrite eat2 by lia.
  destruct (ss =? 0); [reflexivity |].
  cbn [append]. rewrite eat_char_here. cbn [obind].
  rewrite eat2 by lia. cbn [obind].
  destruct (ss mod 1000000 =? 0); [reflexivity |].
  rewrite <- (append_nil_r (fmt_d 6 (ss mod 1000000))).
  now rewrite eat_fraction_some by lia.
Qed.

(** For every datetime the constructor accepts, [isoformat] writes a
    string of the ISO-8601 form. *)
Lemma isoformat_is_iso8601 (d : datetime) :
  valid d -> is_iso8601 (isoformat d) = true.
Proof.
  intros (Hy & Hmo & Hd & Hh & Hmi & Hs & Hus & Hoff).
  unfold is_iso8601, isoformat.
  rewrite eat4 by lia. cbn [obind append]. rewrite eat_char_here. cbn [obind].
  rewrite eat2 by lia. cbn [obind append]. rewrite eat_char_here. cbn [obind].
  rewrite eat2 by lia. cbn [obind append]. rewrite eat_char_here. cbn [obind].
  rewrite eat_time_format by (try lia; apply format_offset_no_dot).
  now apply is_offset_format.
Qed.

End IsoformatShape.

(** *** The comparison raises exactly on a naive and an aware datetime *)

Lemma gt_mismatch (a b : datetime) :
  mismatch a b = true -> gt a b = inl (TypeError naive_aware_msg).
Proof.
  unfold mismatch, is_aware, gt, _cmp, utcoffset.
  destruct (dt_tzinfo a) as [[|i n o]|], (dt_tzinfo b) as [[|j m p]|];
    cbn [option_map xorb tzinfo_is offset_eqb]; intros H;
    try discriminate H; reflexivity.
Qed.

Lemma gt_no_mismatch (a b : datetime) :
  mismatch a b = false -> exists c, gt a b = inr c.
Proof.
  unfold mismatch, is_aware, gt, _cmp, utcoffset.
  destruct (dt_tzinfo a) as [[|i n o]|], (dt_tzinfo b) as [[|j m p]|];
    cbn [option_map xorb tzinfo_is offset_eqb]; intros H;
    try discriminate H;
    repeat match goal with
      | |- context [if ?c then _ else _] => destruct c
      end; eexists; reflexivity.
Qed.

Lemma gt_raises (a b : datetime) (e : exn) :
  gt a b = inl e -> mismatch a b = true /\ e = TypeError naive_aware_msg.
Proof.
  intros H. destruct (mismatch a b) eqn:Hm.
  - rewrite (gt_mismatch _ _ Hm) in H. injection H as <-. now split.
  - destruct (gt_no_mismatch _ _ Hm) as [c Hc]. rewrite Hc in H. discriminate H.
Qed.

Lemma gt_returns (a b : datetime) (c : bool) :
  gt a b = inr c -> mismatch a b = false.
Proof.
  intros H. destruct (mismatch a b) eqn:Hm; [| reflexivity].
  rewrite (gt_mismatch _ _ Hm) in H. discriminate H.
Qed.

Lemma is_aware_utcnow (clock : Clock) : is_aware (utcnow clock) = true.
Proof. reflexivity. Qed.

Lemma mismatch_utcnow (L : datetime) (clock : Clock) :
  mismatch L (utcnow clock) = negb (is_aware L).
Proof. unfold mismatch. rewrite is_aware_utcnow. now destruct (is_aware L). Qed.

Lemma valid_utcnow (clock : Clock) : valid clock -> valid (utcnow clock).
Proof.
  unfold valid, utcnow, replace_tzinfo, utcoffset. cbn.
  intros (? & ? & ? & ? & ? & ? & ? & _). repeat split; lia.
Qed.

(** *** The three checks, one by one *)

Lemma check_future_run (L C : datetime) :
  check_future L C
  = match gt L C with
    | inl e => Gen.raise e
    | inr true => Gen.yield (future_status L C)
    | inr false => Gen.ret tt
    end.
Proof. unfold check_future. destruct (gt L C) as [e|[|]]; reflexivity. Qed.

Lemma check_task_end_run (L : datetime) (task : BaseOperator.t) :
  check_task_end L task
  = match BaseOperator.end_date task with
    | None => Gen.ret tt
    | Some e =>
        match gt L e with
        | inl x => Gen.raise x
        | inr true => Gen.yield (task_end_status L e)
        | inr false => Gen.ret tt
        end
    end.
Proof.
  unfold check_task_end. destruct (BaseOperator.end_date task) as [e|]; [| reflexivity].
  destruct (gt L e) as [x|[|]]; reflexivity.
Qed.

Lemma check_dag_end_run (L : datetime) (task : BaseOperator.t) :
  check_dag_end L task
  = match dag_end_date task with
    | None => Gen.ret tt
    | Some e =>
        match gt L e with
        | inl x => Gen.raise x
        | inr true => Gen.yield (dag_end_status L e)
        | inr false => Gen.ret tt
        end
    end.
Proof.
  unfold check_dag_end, dag_end_date.
  destruct (BaseOperator.dag task) as [d|]; [| reflexivity].
  destruct (DAG.end_date d) as [e|]; [| reflexivity].
  destruct (gt L e) as [x|[|]]; reflexivity.
Qed.

(** Case analysis on the comparisons a call evaluates. *)
Ltac run_cases L C task :=
  rewrite ?check_future_run, ?check_task_end_run, ?check_dag_end_run;
  unfold conditions_holding, expected_statuses, future_cond, task_end_cond,
    dag_end_cond in *;
  destruct (gt L C) as [?x | [|]] eqn:?Hfut;
  destruct (BaseOperator.end_date task) as [?e|] eqn:?Hend;
  destruct (dag_end_date task) as [?e|] eqn:?Hdag;
  repeat match goal with
    | |- context [gt L ?e] => destruct (gt L e) as [?x | [|]] eqn:?Hgt
    end;
  cbn [Gen.bind Gen.raise Gen.yield Gen.ret Gen.yielded Gen.outcome app holds
       Nat.b2n Nat.add List.length] in *.

Section Run.
Variables (clock : Clock) (ti : TaskInstance.t) (session : Session)
          (dep_context : DepContext).
Variables (dr : DagRun.t) (L : datetime).
Hypothesis Hrun : get_dagrun ti session = inr dr.
Hypothesis Hdate : DagRun.logical_date dr = Some L.

Let C := utcnow clock.
Let task := TaskInstance.task ti.
Let r := _get_dep_statuses clock ti session dep_context.

(** With a logical date, a call is the three checks one after the other. *)
Lemma run_checks :
  r = (check_future L C ;;; check_task_end L task ;;; check_dag_end L task).
Proof.
  unfold r, _get_dep_statuses. rewrite Hrun, bind_lift_ok, Hdate. reflexivity.
Qed.

(** A call that returns has yielded one status per condition that holds. *)
Lemma run_returns :
  Gen.outcome r = inr tt -> Gen.yielded r = expected_statuses L C task.
Proof.
  rewrite run_checks. run_cases L C task; intros H; try discriminate H; reflexivity.
Qed.

(** A call never yields more than that, and in that order. *)
Lemma run_prefix :
  exists rest, expected_statuses L C task = (Gen.yielded r ++ rest)%list.
Proof.
  rewrite run_checks. run_cases L C task; eexists; cbn [app]; reflexivity.
Qed.

(** A call raises exactly when a comparison it reaches is between a
    naive and an aware datetime. *)
Lemma run_returns_iff :
  Gen.outcome r = inr tt
  <-> is_aware L = true
      /\ mismatch_opt L (BaseOperator.end_date task) = false
      /\ mismatch_opt L (dag_end_date task) = false.
Proof.
  rewrite run_checks.
  pose proof (mismatch_utcnow L clock) as HmC. fold C in HmC.
  run_cases L C task; cbn [mismatch_opt];
    repeat match goal with
      | H : gt _ _ = inl _ |- _ => apply gt_raises in H; destruct H as [H _]
      | H : gt _ _ = inr _ |- _ => apply gt_returns in H
      end;
    rewrite ?HmC in *; destruct (is_aware L); cbn [negb] in *;
    (split; [intros H0 | intros (H1 & H2 & H3)]); repeat split; congruence.
Qed.

(** The only exception a call raises is the [TypeError] of a comparison,
    and then the last check at least has yielded nothing. *)
Lemma run_raises (x : exn) :
  Gen.outcome r = inl x -> x = TypeError naive_aware_msg.
Proof.
  rewrite run_checks. run_cases L C task; intros H; try discriminate H;
    injection H as <-;
    match goal with
    | H : gt _ _ = inl _ |- _ => now apply gt_raises in H
    end.
Qed.

Lemma run_raises_length (x : exn) :
  Gen.outcome r = inl x -> (List.length (Gen.yielded r) <= 2)%nat.
Proof.
  rewrite run_checks. run_cases L C task; intros H; try discriminate H; lia.
Qed.

(** Where a yielded status comes from. *)
Lemma yielded_origin (s : TIDepStatus) :
  In s (Gen.yielded r) ->
  (gt L C = inr true /\ s = future_status L C)
  \/ (exists e, BaseOperator.end_date task = Some e /\ gt L e = inr true
                /\ s = task_end_status L e)
  \/ (exists e, dag_end_date task = Some e /\ gt L e = inr true
                /\ s = dag_end_status L e).
Proof.
  rewrite run_checks. run_cases L C task; cbn [In]; intros H;
    repeat match goal with
      | H : _ \/ _ |- _ => destruct H as [H | H]
      | H : False |- _ => destruct H
      end; subst s; eauto 6.
Qed.

Lemma yields_future_status :
  gt L C = inr true -> In (future_status L C) (Gen.yielded r).
Proof.
  rewrite run_checks. run_cases L C task; intros H; try discriminate H;
    cbn [In]; auto.
Qed.



End Run.

Lemma future_status_eq (L C : datetime) :
  future_status L C
  = mk_status false
      ("Logical date " ++ isoformat L
       ++ " is in the future (the current date is " ++ isoformat C ++ ").").
Proof. reflexivity. Qed.

Lemma task_end_status_eq (L e : datetime) :
  task_end_status L e
  = mk_status false
      ("The logical date is " ++ isoformat L
       ++ " but this is after the task's end date " ++ isoformat e ++ ".").
Proof. reflexivity. Qed.

Lemma dag_end_status_eq (L e : datetime) :
  dag_end_status L e
  = mk_status false
      ("The logical date is " ++ isoformat L
       ++ " but this is after the task's DAG's end date " ++ isoformat e ++ ".").
Proof. reflexivity. Qed.

Lemma status_reason_inj (a b : string) :
  _failing_status a = _failing_status b -> a = b.
Proof. intros H. now injection H. Qed.

(** *** Timezone-aware timestamps *)

Lemma mismatch_aware (L e : datetime) :
  is_aware L = true -> mismatch L e = negb (is_aware e).
Proof. unfold mismatch. intros ->. now destruct (is_aware e). Qed.

Lemma aware_opt_no_mismatch (L : datetime) (bound : option datetime) :
  is_aware L = true -> aware_opt bound = true -> mismatch_opt L bound = false.
Proof.
  intros Haw Hb. destruct bound as [e|]; [| reflexivity].
  cbn [aware_opt] in Hb. cbn [mismatch_opt].
  now rewrite mismatch_aware, Hb by exact Haw.
Qed.

Lemma expected_statuses_length (L C : datetime) (task : BaseOperator.t) :
  List.length (expected_statuses L C task) = conditions_holding L C task.
Proof.
  unfold expected_statuses, conditions_holding, future_cond, task_end_cond,
    dag_end_cond.
  destruct (holds (gt L C));
    destruct (BaseOperator.end_date task) as [e|];
    try destruct (holds (gt L e));
    destruct (dag_end_date task) as [e'|];
    try destruct (holds (gt L e')); reflexivity.
Qed.

(** ** The claims *)

(** C1.  When the run has a logical date [L] and the clock reads [C], the
    call yields the failing status whose reason cites [L] and [C], both
    written by [isoformat] (an ISO-8601 form for every datetime the
    constructor accepts), if and only if [L > C]; and when [L > C] and
    neither end-date condition holds, that status is the only one yielded. *)
Theorem future_status_iff_logical_date_after_now
    (clock : Clock) (ti : TaskInstance.t) (session : Session)
    (dep_context : DepContext) (dr : DagRun.t) (L : datetime) :
  get_dagrun ti session = inr dr ->
  DagRun.logical_date dr = Some L ->
  let C := utcnow clock in
  let r := _get_dep_statuses clock ti session dep_context in
  (yields_future L C r <-> gt L C = inr true)
  /\ (gt L C = inr true ->
      task_end_cond L (TaskInstance.task ti) = false ->
      dag_end_cond L (TaskInstance.task ti) = false ->
      Gen.yielded r
      = [mk_status false
           ("Logical date " ++ isoformat L
            ++ " is in the future (the current date is " ++ isoformat C ++ ").")])
  /\ (valid L -> valid clock ->
      is_iso8601 (isoformat L) = true /\ is_iso8601 (isoformat C) = true).
Proof.
  intros Hrun Hdate C r. split; [| split].
  - unfold yields_future. rewrite <- future_status_eq. split.
    + intros Hin.
      destruct (yielded_origin _ _ _ dep_context _ _ Hrun Hdate _ Hin)
        as [[H _] | [(e & _ & _ & H) | (e & _ & _ & H)]]; [exact H | |];
        apply status_reason_inj in H; exfalso.
      * exact (future_task_reason_neq _ _ _ _ H).
      * exact (future_dag_reason_neq _ _ _ _ H).
    + exact (yields_future_status _ _ _ _ _ _ Hrun Hdate).
  - intros Hgt Htask Hdag. rewrite <- future_status_eq.
    pose proof (run_prefix clock ti session dep_context dr L Hrun Hdate) as [rest Hp].
    pose proof (yields_future_status clock ti session dep_context dr L Hrun Hdate Hgt)
      as Hin.
    fold r C in Hp, Hin.
    unfold expected_statuses, future_cond in Hp.
    unfold task_end_cond in Htask. unfold dag_end_cond in Hdag.
    rewrite Hgt in Hp. cbn [holds] in Hp.
    destruct (BaseOperator.end_date (TaskInstance.task ti)) as [e|];
      [rewrite Htask in Hp |];
      (destruct (dag_end_date (TaskInstance.task ti)) as [e'|];
       [rewrite Hdag in Hp |]);
      cbn [app] in Hp;
      (destruct (Gen.yielded r) as [|s [|s' ys]];
       [destruct Hin | | discriminate Hp]);
      cbn [app] in Hp; injection Hp as Hs _; now rewrite Hs.
  - intros HL Hc. split; apply isoformat_is_iso8601; [exact HL |].
    now apply valid_utcnow.
Qed.

Lemma future_status_iff_logical_date_after_now_witness :
  let L := Examples.aware 2023 1 1 in
  let clock := Examples.all_three_clock in
  let r := _get_dep_statuses clock (Examples.ti_of Examples.plain_task)
             (Examples.session_of (Some L)) Examples.ctx in
  yields_future L (utcnow clock) r
  /\ Gen.yielded r
     = [mk_status false
          ("Logical date 2023-01-01T00:00:00+00:00 is in the future "
           ++ "(the current date is 2022-06-01T00:00:00+00:00).")]
  /\ is_iso8601 (isoformat L) = true
  /\ is_iso8601 (isoformat (utcnow clock)) = true.
Proof.
  destruct (future_status_iff_logical_date_after_now
              Examples.all_three_clock (Examples.ti_of Examples.plain_task)
              (Examples.session_of (Some (Examples.aware 2023 1 1))) Examples.ctx
              (Examples.run_of (Some (Examples.aware 2023 1 1)))
              (Examples.aware 2023 1 1) eq_refl eq_refl) as (Hiff & Honly & Hiso).
  split; [apply Hiff; reflexivity |].
  split; [exact (Honly eq_refl eq_refl eq_refl) |].
  apply Hiso; unfold valid; cbn; lia.
Defined.

(** C2.  When the run's logical date is [None], the call yields nothing and
    returns without raising, whatever the clock reads and whatever end dates
    the task and its DAG have; [is_met] over this call is true. *)
Theorem no_logical_date_no_status
    (clock : Clock) (ti : TaskInstance.t) (session : Session)
    (dep_context : DepContext) (dr : DagRun.t) :
  get_dagrun ti session = inr dr ->
  DagRun.logical_date dr = None ->
  let r := _get_dep_statuses clock ti session dep_context in
  Gen.yielded r = [] /\ Gen.outcome r = inr tt /\ is_met r = inr true.
Proof.
  intros Hrun Hdate r. unfold r, _get_dep_statuses.
  rewrite Hrun, bind_lift_ok, Hdate. repeat split.
Qed.

Lemma no_logical_date_no_status_witness :
  let r := _get_dep_statuses Examples.all_three_clock
             (Examples.ti_of Examples.all_three_task)
             (Examples.session_of None) Examples.ctx in
  Gen.yielded r = [] /\ Gen.outcome r = inr tt /\ is_met r = inr true.
Proof.
  exact (no_logical_date_no_status
           Examples.all_three_clock (Examples.ti_of Examples.all_three_task)
           (Examples.session_of None) Examples.ctx (Examples.run_of None)
           eq_refl eq_refl).
Defined.

(** C3.  When the run has a logical date and the timestamps are
    timezone-aware, as the data layer stores them (the logical date, the
    task's end date if there is one, the DAG's end date if there is one),
    one call returns having yielded one failing status per check whose
    condition holds: future date, task end date, DAG end date, in this
    order and with no short-circuit among them.  The number of statuses is
    the number of conditions that hold, between 0 and 3. *)
Theorem one_status_per_condition
    (clock : Clock) (ti : TaskInstance.t) (session : Session)
    (dep_context : DepContext) (dr : DagRun.t) (L : datetime) :
  get_dagrun ti session = inr dr ->
  DagRun.logical_date dr = Some L ->
  is_aware L = true ->
  aware_opt (BaseOperator.end_date (TaskInstance.task ti)) = true ->
  aware_opt (dag_end_date (TaskInstance.task ti)) = true ->
  let C := utcnow clock in
  let task := TaskInstance.task ti in
  let r := _get_dep_statuses clock ti session dep_context in
  Gen.outcome r = inr tt
  /\ Gen.yielded r = expected_statuses L C task
  /\ List.length (Gen.yielded r) = conditions_holding L C task
  /\ (0 <= conditions_holding L C task <= 3)%nat.
Proof.
  intros Hrun Hdate Haw Hend Hdag C task r.
  assert (Hok : Gen.outcome r = inr tt).
  { apply (run_returns_iff clock ti session dep_context dr L Hrun Hdate).
    split; [exact Haw |].
    split; now apply aware_opt_no_mismatch. }
  pose proof (run_returns clock ti session dep_context dr L Hrun Hdate Hok) as Hy.
  fold C task r in Hy.
  split; [exact Hok |]. split; [exact Hy |]. split.
  - rewrite Hy. apply expected_statuses_length.
  - unfold conditions_holding.
    destruct (future_cond L C), (task_end_cond L task), (dag_end_cond L task);
      cbn; lia.
Qed.

Lemma one_status_per_condition_witness :
  let L := Examples.aware 2023 1 1 in
  let clock := Examples.all_three_clock in
  let task := Examples.all_three_task in
  let r := _get_dep_statuses clock (Examples.ti_of task)
             (Examples.session_of (Some L)) Examples.ctx in
  Gen.outcome r = inr tt
  /\ Gen.yielded r = expected_statuses L (utcnow clock) task
  /\ List.length (Gen.yielded r) = 3%nat
  /\ conditions_holding L (utcnow clock) task = 3%nat.
Proof.
  destruct (one_status_per_condition
              Examples.all_three_clock (Examples.ti_of Examples.all_three_task)
              (Examples.session_of (Some (Examples.aware 2023 1 1))) Examples.ctx
              (Examples.run_of (Some (Examples.aware 2023 1 1)))
              (Examples.aware 2023 1 1) eq_refl eq_refl eq_refl eq_refl eq_refl)
    as (Hok & Hy & _ & _).
  split; [exact Hok |]. split; [exact Hy |]. split; reflexivity.
Defined.





(** C6.  Scenario 2 of the specification: logical date 2023-01-01T00:00:00Z,
    task end date 2022-01-01T00:00:00Z, no DAG end date (no DAG, or a DAG
    without one), clock at 2023-06-01T00:00:00Z.  The call yields exactly one
    status, that of the task end-date check, returns, and does not yield the
    future-date status. *)
Theorem scenario2_only_task_end_status
    (ti : TaskInstance.t) (session : Session) (dep_context : DepContext)
    (dr : DagRun.t) :
  get_dagrun ti session = inr dr ->
  DagRun.logical_date dr = Some (Examples.aware 2023 1 1) ->
  BaseOperator.end_date (TaskInstance.task ti) = Some (Examples.aware 2022 1 1) ->
  dag_end_date (TaskInstance.task ti) = None ->
  let L := Examples.aware 2023 1 1 in
  let C := utcnow Examples.scenario2_clock in
  let r := _get_dep_statuses Examples.scenario2_clock ti session dep_context in
  r = Gen.mk_run
        [mk_status false
           ("The logical date is 2023-01-01T00:00:00+00:00 but this is after "
            ++ "the task's end date 2022-01-01T00:00:00+00:00.")]
        (inr tt)
  /\ yields_task_end L (TaskInstance.task ti) r
  /\ ~ yields_future L C r.
Proof.
  intros Hrun Hdate Hend Hdag L C r.
  assert (Hr : r = Gen.mk_run [task_end_status L (Examples.aware 2022 1 1)] (inr tt)).
  { unfold r. rewrite (run_checks _ _ _ dep_context _ _ Hrun Hdate).
    rewrite check_future_run, check_task_end_run, check_dag_end_run, Hend, Hdag.
    reflexivity. }
  split; [rewrite Hr; reflexivity |]. split.
  - exists (Examples.aware 2022 1 1). split; [exact Hend |].
    rewrite Hr. left. reflexivity.
  - unfold yields_future. rewrite Hr. intros [H | []]. discriminate H.
Qed.

Lemma scenario2_only_task_end_status_witness :
  let L := Examples.aware 2023 1 1 in
  let ti := Examples.ti_of Examples.scenario2_task in
  let r := _get_dep_statuses Examples.scenario2_clock ti
             (Examples.session_of (Some L)) Examples.ctx in
  r = Gen.mk_run
        [mk_status false
           ("The logical date is 2023-01-01T00:00:00+00:00 but this is after "
            ++ "the task's end date 2022-01-01T00:00:00+00:00.")]
        (inr tt)
  /\ yields_task_end L (TaskInstance.task ti) r
  /\ ~ yields_future L (utcnow Examples.scenario2_clock) r.
Proof.
  exact (scenario2_only_task_end_status
           (Examples.ti_of Examples.scenario2_task)
           (Examples.session_of (Some (Examples.aware 2023 1 1))) Examples.ctx
           (Examples.run_of (Some (Examples.aware 2023 1 1)))
           eq_refl eq_refl eq_refl eq_refl).
Defined.

(** C7, as stated, fails: when all three checks fire (logical date
    2023-01-01, clock at 2022-06-01, task end date 2021-01-01, DAG end date
    2020-01-01) the three reasons are the ones below, and none of them
    contains any of the three wordings the specification gives; the third
    does not contain the word "workflow" at all. *)
Lemma reasons_differ_from_spec_wording :
  let L := Examples.aware 2023 1 1 in
  let clock := Examples.all_three_clock in
  let r := _get_dep_statuses clock (Examples.ti_of Examples.all_three_task)
             (Examples.session_of (Some L)) Examples.ctx in
  map reason (Gen.yielded r)
  = ["Logical date 2023-01-01T00:00:00+00:00 is in the future (the current date is 2022-06-01T00:00:00+00:00).";
     "The logical date is 2023-01-01T00:00:00+00:00 but this is after the task's end date 2021-01-01T00:00:00+00:00.";
     "The logical date is 2023-01-01T00:00:00+00:00 but this is after the task's DAG's end date 2020-01-01T00:00:00+00:00."]
  /\ map (matches_spec_wording (utcnow clock)) (Gen.yielded r) = [false; false; false]
  /\ map (fun s => contains "workflow" (reason s)) (Gen.yielded r)
     = [false; false; false].
Proof. repeat split. Qed.

(** C7, amended.  Every status yielded is a failing one and its reason is
    one of three sentences: "Logical date <L> is in the future (the current
    date is <C>)." for the future-date check, "The logical date is <L> but
    this is after the task's end date <E>." for the task end-date check, and
    "The logical date is <L> but this is after the task's DAG's end date
    <E>." for the DAG end-date check, where each timestamp is written by
    [isoformat], which gives an ISO-8601 form for every datetime the
    constructor accepts. *)
Theorem reason_wording
    (clock : Clock) (ti : TaskInstance.t) (session : Session)
    (dep_context : DepContext) (dr : DagRun.t) (L : datetime)
    (s : TIDepStatus) :
  get_dagrun ti session = inr dr ->
  DagRun.logical_date dr = Some L ->
  In s (Gen.yielded (_get_dep_statuses clock ti session dep_context)) ->
  let C := utcnow clock in
  let task := TaskInstance.task ti in
  passed s = false
  /\ (reason s = "Logical date " ++ isoformat L
                 ++ " is in the future (the current date is " ++ isoformat C ++ ")."
      \/ (exists e, BaseOperator.end_date task = Some e /\
            reason s = "The logical date is " ++ isoformat L
                       ++ " but this is after the task's end date "
                       ++ isoformat e ++ ".")
      \/ (exists e, dag_end_date task = Some e /\
            reason s = "The logical date is " ++ isoformat L
                       ++ " but this is after the task's DAG's end date "
                       ++ isoformat e ++ "."))
  /\ (forall d, valid d -> is_iso8601 (isoformat d) = true).
Proof.
  intros Hrun Hdate Hin C task.
  destruct (yielded_origin _ _ _ dep_context _ _ Hrun Hdate _ Hin)
    as [[_ ->] | [(e & He & _ & ->) | (e & He & _ & ->)]];
    (split; [reflexivity |]); (split; [| exact isoformat_is_iso8601]).
  - left. reflexivity.
  - right; left. exists e. split; [exact He | reflexivity].
  - right; right. exists e. split; [exact He | reflexivity].
Qed.

Lemma reason_wording_witness :
  let L := Examples.aware 2023 1 1 in
  let s := mk_status false
    "The logical date is 2023-01-01T00:00:00+00:00 but this is after the task's DAG's end date 2020-01-01T00:00:00+00:00." in
  In s (Gen.yielded (_get_dep_statuses Examples.all_three_clock
                       (Examples.ti_of Examples.all_three_task)
                       (Examples.session_of (Some L)) Examples.ctx))
  /\ passed s = false
  /\ is_iso8601 (isoformat L) = true.
Proof.
  assert (Hin : In (mk_status false
    "The logical date is 2023-01-01T00:00:00+00:00 but this is after the task's DAG's end date 2020-01-01T00:00:00+00:00.")
    (Gen.yielded (_get_dep_statuses Examples.all_three_clock
                       (Examples.ti_of Examples.all_three_task)
                       (Examples.session_of (Some (Examples.aware 2023 1 1)))
                       Examples.ctx))).
  { right; right; left. reflexivity. }
  destruct (reason_wording
              Examples.all_three_clock (Examples.ti_of Examples.all_three_task)
              (Examples.session_of (Some (Examples.aware 2023 1 1))) Examples.ctx
              (Examples.run_of (Some (Examples.aware 2023 1 1)))
              (Examples.aware 2023 1 1) _ eq_refl eq_refl Hin) as (Hp & _ & Hiso).
  split; [exact Hin |]. split; [exact Hp |].
  apply Hiso. unfold valid; cbn; lia.
Defined.

(** C8.  Two calls whose runs have the same logical date, whose tasks have
    the same end date and the same DAG end date, and whose clock readings
    are the same, yield the same statuses in the same order and end the same
    way; nothing else about the task instance, the session or the dependency
    context matters. *)
Theorem same_inputs_same_statuses
    (clock1 clock2 : Clock) (ti1 ti2 : TaskInstance.t) (session1 session2 : Session)
    (ctx1 ctx2 : DepContext) (dr1 dr2 : DagRun.t) :
  get_dagrun ti1 session1 = inr dr1 ->
  get_dagrun ti2 session2 = inr dr2 ->
  DagRun.logical_date dr1 = DagRun.logical_date dr2 ->
  BaseOperator.end_date (TaskInstance.task ti1)
  = BaseOperator.end_date (TaskInstance.task ti2) ->
  dag_end_date (TaskInstance.task ti1) = dag_end_date (TaskInstance.task ti2) ->
  utcnow clock1 = utcnow clock2 ->
  let r1 := _get_dep_statuses clock1 ti1 session1 ctx1 in
  let r2 := _get_dep_statuses clock2 ti2 session2 ctx2 in
  r1 = r2
  /\ Gen.yielded r1 = Gen.yielded r2
  /\ map reason (Gen.yielded r1) = map reason (Gen.yielded r2)
  /\ List.length (Gen.yielded r1) = List.length (Gen.yielded r2).
Proof.
  intros Hrun1 Hrun2 Hdate Hend Hdag Hclock r1 r2.
  assert (H : r1 = r2).
  { unfold r1, r2. destruct (DagRun.logical_date dr2) as [L|] eqn:Hd2.
    - rewrite (run_checks _ _ _ ctx1 _ _ Hrun1 Hdate).
      rewrite (run_checks _ _ _ ctx2 _ _ Hrun2 Hd2).
      rewrite !check_task_end_run, !check_dag_end_run, Hend, Hdag, Hclock.
      reflexivity.
    - unfold _get_dep_statuses.
      rewrite Hrun1, Hrun2, !bind_lift_ok, Hdate, Hd2. reflexivity. }
  rewrite H. repeat split.
Qed.

Lemma same_inputs_same_statuses_witness :
  let L := Examples.aware 2023 1 1 in
  let ti1 := Examples.ti_of Examples.scenario2_task in
  let ti2 := TaskInstance.mk "etl" "manual__7" 3
               (BaseOperator.mk "extract" (Some (Examples.aware 2022 1 1)) None) in
  let r1 := _get_dep_statuses Examples.scenario2_clock ti1
              (Examples.session_of (Some L)) Examples.ctx in
  let r2 := _get_dep_statuses Examples.scenario2_clock ti2
              [DagRun.mk "etl" "manual__7" (Some L)] (mk_dep_context true true) in
  r1 = r2
  /\ Gen.yielded r1 = Gen.yielded r2
  /\ map reason (Gen.yielded r1) = map reason (Gen.yielded r2)
  /\ List.length (Gen.yielded r1) = List.length (Gen.yielded r2).
Proof.
  exact (same_inputs_same_statuses
           Examples.scenario2_clock Examples.scenario2_clock
           (Examples.ti_of Examples.scenario2_task)
           (TaskInstance.mk "etl" "manual__7" 3
              (BaseOperator.mk "extract" (Some (Examples.aware 2022 1 1)) None))
           (Examples.session_of (Some (Examples.aware 2023 1 1)))
           [DagRun.mk "etl" "manual__7" (Some (Examples.aware 2023 1 1))]
           Examples.ctx (mk_dep_context true true)
           (Examples.run_of (Some (Examples.aware 2023 1 1)))
           (DagRun.mk "etl" "manual__7" (Some (Examples.aware 2023 1 1)))
           eq_refl eq_refl eq_refl eq_refl eq_refl eq_refl).
Defined.

(** C9.  When the run has a logical date [L] and one of the comparisons the
    call makes is between a naive and an aware datetime ([L] against the UTC
    clock reading, against the task's end date, or against the DAG's end
    date), the call ends by raising the [TypeError] of the comparison: it is
    neither caught nor replaced by a status.  Every status yielded before it
    comes from an earlier check whose own comparison was evaluated and found
    true. *)
Theorem naive_aware_comparison_raises
    (clock : Clock) (ti : TaskInstance.t) (session : Session)
    (dep_context : DepContext) (dr : DagRun.t) (L : datetime) :
  get_dagrun ti session = inr dr ->
  DagRun.logical_date dr = Some L ->
  let C := utcnow clock in
  let task := TaskInstance.task ti in
  let r := _get_dep_statuses clock ti session dep_context in
  mismatch L C = true
  \/ mismatch_opt L (BaseOperator.end_date task) = true
  \/ mismatch_opt L (dag_end_date task) = true ->
  Gen.outcome r = inl (TypeError naive_aware_msg)
  /\ (forall s, In s (Gen.yielded r) ->
        (gt L C = inr true /\ s = future_status L C)
        \/ (exists e, BaseOperator.end_date task = Some e /\ gt L e = inr true
                      /\ s = task_end_status L e)
        \/ (exists e, dag_end_date task = Some e /\ gt L e = inr true
                      /\ s = dag_end_status L e))
  /\ (List.length (Gen.yielded r) <= 2)%nat.
Proof.
  intros Hrun Hdate C task r Hmis.
  pose proof (run_returns_iff clock ti session dep_context dr L Hrun Hdate) as Hiff.
  pose proof (run_raises clock ti session dep_context dr L Hrun Hdate) as Hexn.
  pose proof (mismatch_utcnow L clock) as HmC.
  fold C task r in Hiff, Hexn, HmC.
  assert (Hout : Gen.outcome r = inl (TypeError naive_aware_msg)).
  { destruct (Gen.outcome r) as [x | []] eqn:Ho.
    - now rewrite (Hexn x eq_refl).
    - exfalso. destruct Hiff as [Hiff _].
      destruct (Hiff eq_refl) as (Haw & Hm1 & Hm2).
      rewrite HmC, Haw in Hmis. cbn [negb] in Hmis.
      destruct Hmis as [H | [H | H]]; congruence. }
  split; [exact Hout |]. split.
  - intros s. exact (yielded_origin _ _ _ dep_context _ _ Hrun Hdate s).
  - exact (run_raises_length clock ti session dep_context dr L Hrun Hdate _ Hout).
Qed.

Lemma naive_aware_comparison_raises_witness :
  let L := Examples.aware 2023 1 1 in
  let r := _get_dep_statuses Examples.all_three_clock
             (Examples.ti_of Examples.naive_task_end_task)
             (Examples.session_of (Some L)) Examples.ctx in
  Gen.outcome r = inl (TypeError naive_aware_msg)
  /\ (List.length (Gen.yielded r) <= 2)%nat.
Proof.
  destruct (naive_aware_comparison_raises
              Examples.all_three_clock (Examples.ti_of Examples.naive_task_end_task)
              (Examples.session_of (Some (Examples.aware 2023 1 1))) Examples.ctx
              (Examples.run_of (Some (Examples.aware 2023 1 1)))
              (Examples.aware 2023 1 1) eq_refl eq_refl
              (or_intror (or_introl eq_refl))) as (Hout & _ & Hlen).
  split; [exact Hout | exact Hlen].
Defined.

(** C10.  When the task has no DAG at all and the timestamps are
    timezone-aware, as the data layer stores them (the logical date and the
    task's end date, each if there is one), one call completes without
    error: the DAG end-date check is skipped, it yields nothing and raises
    nothing, so that the call is the future-date check followed by the task
    end-date check and yields at most those two statuses.  The missing DAG
    is read by the guard as falsy, never as an error. *)
Theorem no_dag_skips_dag_end_check
    (clock : Clock) (ti : TaskInstance.t) (session : Session)
    (dep_context : DepContext) (dr : DagRun.t) :
  get_dagrun ti session = inr dr ->
  BaseOperator.dag (TaskInstance.task ti) = None ->
  aware_opt (DagRun.logical_date dr) = true ->
  aware_opt (BaseOperator.end_date (TaskInstance.task ti)) = true ->
  let C := utcnow clock in
  let task := TaskInstance.task ti in
  let r := _get_dep_statuses clock ti session dep_context in
  Gen.outcome r = inr tt
  /\ (List.length (Gen.yielded r) <= 2)%nat
  /\ match DagRun.logical_date dr with
     | None => Gen.yielded r = []
     | Some L =>
         check_dag_end L task = Gen.mk_run [] (inr tt)
         /\ r = (check_future L C ;;; check_task_end L task)
         /\ (forall s, In s (Gen.yielded r) ->
               s = future_status L C
               \/ exists e, BaseOperator.end_date task = Some e
                            /\ s = task_end_status L e)
     end.
Proof.
  intros Hrun Hnodag Hlog Hend C task r.
  destruct (DagRun.logical_date dr) as [L|] eqn:Hdate.
  - cbn [aware_opt] in Hlog.
    assert (Hd : dag_end_date task = None)
      by (unfold dag_end_date, task; now rewrite Hnodag).
    assert (Hskip : check_dag_end L task = Gen.mk_run [] (inr tt))
      by (unfold check_dag_end, task; now rewrite Hnodag).
    pose proof (run_checks clock ti session dep_context dr L Hrun Hdate) as Hr.
    fold C task r in Hr.
    split; [| split; [| split; [| split]]].
    + apply (run_returns_iff clock ti session dep_context dr L Hrun Hdate).
      fold task. rewrite Hd. split; [exact Hlog |].
      split; [now apply aware_opt_no_mismatch | reflexivity].
    + destruct (run_prefix clock ti session dep_context dr L Hrun Hdate)
        as [rest Hp].
      fold C task r in Hp.
      assert (Hle : (List.length (Gen.yielded r)
                     <= List.length (expected_statuses L C task))%nat)
        by (rewrite Hp, length_app; lia).
      unfold expected_statuses in Hle. rewrite Hd in Hle.
      destruct (future_cond L C);
        destruct (BaseOperator.end_date task) as [e|];
        try destruct (holds (gt L e)); cbn in Hle; lia.
    + exact Hskip.
    + rewrite Hr, Hskip. fold (@Gen.ret TIDepStatus unit tt).
      now rewrite bind_ret_r.
    + intros s Hin.
      destruct (yielded_origin _ _ _ dep_context _ _ Hrun Hdate _ Hin)
        as [[_ H] | [(e & He & _ & H) | (e & He & _)]].
      * now left.
      * right. now exists e.
      * fold task in He. congruence.
  - unfold r, _get_dep_statuses. rewrite Hrun, bind_lift_ok, Hdate.
    repeat split. cbn. lia.
Qed.

Lemma no_dag_skips_dag_end_check_witness :
  let L := Examples.aware 2023 1 1 in
  let r := _get_dep_statuses Examples.all_three_clock
             (Examples.ti_of Examples.no_dag_task)
             (Examples.session_of (Some L)) Examples.ctx in
  Gen.outcome r = inr tt
  /\ (List.length (Gen.yielded r) <= 2)%nat
  /\ check_dag_end L Examples.no_dag_task = Gen.mk_run [] (inr tt).
Proof.
  destruct (no_dag_skips_dag_end_check
              Examples.all_three_clock (Examples.ti_of Examples.no_dag_task)
              (Examples.session_of (Some (Examples.aware 2023 1 1))) Examples.ctx
              (Examples.run_of (Some (Examples.aware 2023 1 1)))
              eq_refl eq_refl eq_refl eq_refl) as (Hok & Hlen & Hskip & _).
  split; [exact Hok |]. split; [exact Hlen | exact Hskip].
Defined.

(** ** Further properties of the method *)

Section Order.
Variables (clock : Clock) (ti : TaskInstance.t) (session : Session)
          (dep_context : DepContext).
Variables (dr : DagRun.t) (L : datetime).
Hypothesis Hrun : get_dagrun ti session = inr dr.
Hypothesis Hdate : DagRun.logical_date dr = Some L.

Let C := utcnow clock.
Let task := TaskInstance.task ti.
Let r := _get_dep_statuses clock ti session dep_context.

Lemma status_neq_of_reason (a b : string) :
  a <> b -> _failing_status a <> _failing_status b.
Proof. intros Hab H. apply Hab. now injection H. Qed.

Lemma status_neq (a b : string) (s t : TIDepStatus) :
  s = _failing_status a -> t = _failing_status b -> a <> b -> s <> t.
Proof. intros -> -> Hab H. apply Hab. now injection H. Qed.

Lemma expected_statuses_NoDup : NoDup (expected_statuses L C task).
Proof.
  assert (Hft : forall e, future_status L C <> task_end_status L e)
    by (intros e; apply status_neq_of_reason, future_task_reason_neq).
  assert (Hfd : forall e, future_status L C <> dag_end_status L e)
    by (intros e; apply status_neq_of_reason, future_dag_reason_neq).
  assert (Htd : forall e e', task_end_status L e <> dag_end_status L e')
    by (intros e e'; apply status_neq_of_reason, task_dag_reason_neq).
  unfold expected_statuses.
  destruct (future_cond L C);
    destruct (BaseOperator.end_date task) as [e|];
    try destruct (holds (gt L e));
    destruct (dag_end_date task) as [e'|];
    try destruct (holds (gt L e')); cbn [app];
    repeat constructor; cbn [In];
    intros H; repeat destruct H as [H | H]; try contradiction;
    symmetry in H;
    first [ exact (Hft _ H) | exact (Hfd _ H) | exact (Htd _ _ H) ].
Qed.

End Order.

Lemma firstn_length_app {A} (l rest : list A) :
  firstn (List.length l) (l ++ rest) = l.
Proof. induction l as [|x l IH]; cbn; [reflexivity | now rewrite IH]. Qed.

Lemma tuple_cmp_refl (l : list Z) : tuple_cmp l l = 0.
Proof.
  induction l as [|x l IH]; cbn [tuple_cmp]; [reflexivity |].
  now rewrite Z.ltb_irrefl.
Qed.

(** A datetime is not after itself. *)
Lemma gt_irrefl (a : datetime) : gt a a = inr false.
Proof.
  unfold gt, _cmp.
  assert (Hsame : tzinfo_is (dt_tzinfo a) (dt_tzinfo a) = true).
  { unfold tzinfo_is. destruct (dt_tzinfo a) as [[|i n o]|]; try reflexivity.
    apply Nat.eqb_refl. }
  rewrite Hsame. cbv iota. now rewrite tuple_cmp_refl.
Qed.

Section Edge.
Variables (clock : Clock) (ti : TaskInstance.t) (session : Session)
          (dep_context : DepContext).
Variables (dr : DagRun.t) (L : datetime).
Hypothesis Hrun : get_dagrun ti session = inr dr.
Hypothesis Hdate : DagRun.logical_date dr = Some L.

Let C := utcnow clock.
Let task := TaskInstance.task ti.
Let r := _get_dep_statuses clock ti session dep_context.

(** X1.  The statuses a call yields are exactly these, in this order: the
    future-date status if its condition holds, then the task end-date status
    if its condition holds, then the DAG end-date status if its condition
    holds; the list stops only where a comparison raises: at once for a
    naive logical date, after the future-date check for a naive task end
    date.  So a call that returns has yielded one status per condition that
    holds, and what any call has yielded is a beginning of that list. *)
Theorem statuses_follow_check_order :
  Gen.yielded r = statuses_until_error L C task
  /\ (Gen.outcome r = inr tt -> Gen.yielded r = expected_statuses L C task)
  /\ Gen.yielded r
     = firstn (List.length (Gen.yielded r)) (expected_statuses L C task).
Proof.
  split; [| split].
  - pose proof (run_checks clock ti session dep_context dr L Hrun Hdate) as Hr.
    fold C task r in Hr.
    rewrite Hr, check_future_run, check_task_end_run, check_dag_end_run.
    unfold statuses_until_error, future_part, task_end_part, dag_end_part,
      future_cond, aware_opt.
    pose proof (mismatch_utcnow L clock) as HmC. fold C in HmC.
    destruct (is_aware L) eqn:Haw; cbn [negb] in HmC.
    + destruct (gt_no_mismatch _ _ HmC) as [c Hc]. rewrite Hc.
      destruct (BaseOperator.end_date task) as [e|].
      * destruct (is_aware e) eqn:Hae.
        -- assert (Hm : mismatch L e = false)
             by (rewrite mismatch_aware, Hae by exact Haw; reflexivity).
           destruct (gt_no_mismatch _ _ Hm) as [c' Hc']. rewrite Hc'.
           destruct (dag_end_date task) as [e'|];
             [destruct (gt L e') as [x | [|]] |]; destruct c, c'; reflexivity.
        -- assert (Hm : mismatch L e = true)
             by (rewrite mismatch_aware, Hae by exact Haw; reflexivity).
           rewrite (gt_mismatch _ _ Hm). destruct c; reflexivity.
      * destruct (dag_end_date task) as [e'|];
          [destruct (gt L e') as [x | [|]] |]; destruct c; reflexivity.
    + rewrite (gt_mismatch _ _ HmC). reflexivity.
  - exact (run_returns clock ti session dep_context dr L Hrun Hdate).
  - destruct (run_prefix clock ti session dep_context dr L Hrun Hdate)
      as [rest Hp].
    fold C task r in Hp. rewrite Hp. now rewrite firstn_length_app.
Qed.

(** X2.  No status is yielded twice by one call. *)
Theorem statuses_are_distinct : NoDup (Gen.yielded r).
Proof.
  destruct (run_prefix clock ti session dep_context dr L Hrun Hdate) as [rest Hp].
  fold C task r in Hp.
  pose proof (expected_statuses_NoDup clock ti L) as Hnd.
  fold C task in Hnd. rewrite Hp in Hnd.
  exact (NoDup_app_remove_r _ _ Hnd).
Qed.

(** X3.  A call returns exactly when every timestamp it can compare is
    timezone-aware: the logical date, the task's end date if there is one,
    and the DAG's end date if there is one; otherwise it raises the
    [TypeError] of the datetime comparison. *)
Theorem call_returns_iff_all_aware :
  Gen.outcome r
  = if all_aware L task then inr tt else inl (TypeError naive_aware_msg).
Proof.
  pose proof (run_returns_iff clock ti session dep_context dr L Hrun Hdate) as Hiff.
  pose proof (run_raises clock ti session dep_context dr L Hrun Hdate) as Hexn.
  fold C task r in Hiff, Hexn.
  assert (Hall : all_aware L task = true
                 <-> is_aware L = true
                     /\ mismatch_opt L (BaseOperator.end_date task) = false
                     /\ mismatch_opt L (dag_end_date task) = false).
  { unfold all_aware, aware_opt, mismatch_opt.
    destruct (is_aware L) eqn:Haw; cbn [andb].
    - destruct (BaseOperator.end_date task) as [e|],
               (dag_end_date task) as [e'|];
        rewrite ?(mismatch_aware L) by exact Haw;
        repeat match goal with
          | |- context [is_aware ?x] => destruct (is_aware x)
          end; cbn; intuition congruence.
    - intuition congruence. }
  destruct (Gen.outcome r) as [x | []] eqn:Ho.
  - rewrite (Hexn x eq_refl).
    destruct (all_aware L task); [| reflexivity].
    destruct Hall as [Hall _]. destruct Hiff as [_ Hiff].
    specialize (Hiff (Hall eq_refl)). discriminate Hiff.
  - destruct Hiff as [Hiff _]. destruct Hall as [_ Hall].
    now rewrite (Hall (Hiff eq_refl)).
Qed.

(** X4.  A call finds the dependency satisfied, that is, returns without
    having yielded anything, exactly when each comparison it makes was
    evaluated and found false: the logical date is not after the clock
    reading, not after the task's end date if there is one, and not after
    the DAG's end date if there is one. *)
Theorem satisfied_iff_within_all_bounds :
  r = Gen.mk_run [] (inr tt)
  <-> gt L C = inr false
      /\ within L (BaseOperator.end_date task)
      /\ within L (dag_end_date task).
Proof.
  pose proof (run_checks clock ti session dep_context dr L Hrun Hdate) as Hr.
  fold C task r in Hr. rewrite Hr. unfold within.
  run_cases L C task; split;
    try (intros H; discriminate H);
    try (intros (H1 & H2 & H3); discriminate);
    try (intros _; repeat split; reflexivity);
    try (intros _; reflexivity).
Qed.

(** X6.  With a timezone-naive logical date a call yields nothing and raises
    [TypeError]: the first comparison is with the clock reading, which is
    always aware, so the end dates are never looked at. *)
Theorem naive_logical_date_raises_at_once :
  is_aware L = false ->
  r = Gen.mk_run [] (inl (TypeError naive_aware_msg)).
Proof.
  intros Hnaive.
  assert (Hm : mismatch L C = true)
    by (unfold C; rewrite mismatch_utcnow, Hnaive; reflexivity).
  pose proof (run_checks clock ti session dep_context dr L Hrun Hdate) as Hr.
  fold C task r in Hr. rewrite Hr.
  rewrite check_future_run, (gt_mismatch _ _ Hm). reflexivity.
Qed.

(** X7.  With an aware logical date and a naive task end date, a call yields
    the future-date status if the logical date is after the clock reading,
    then raises [TypeError]; the DAG's end date is never compared, whatever
    it is. *)
Theorem naive_task_end_date_stops_the_call (e : datetime) :
  is_aware L = true ->
  BaseOperator.end_date task = Some e ->
  is_aware e = false ->
  r = Gen.mk_run (future_part L C) (inl (TypeError naive_aware_msg)).
Proof.
  intros Haw He Hnaive.
  assert (Hm : mismatch L e = true)
    by (rewrite mismatch_aware, Hnaive by exact Haw; reflexivity).
  assert (HmC : mismatch L C = false)
    by (unfold C; rewrite mismatch_utcnow, Haw; reflexivity).
  destruct (gt_no_mismatch _ _ HmC) as [c Hc].
  pose proof (run_checks clock ti session dep_context dr L Hrun Hdate) as Hr.
  fold C task r in Hr. rewrite Hr.
  rewrite check_future_run, check_task_end_run, He, (gt_mismatch _ _ Hm), Hc.
  unfold future_part, future_cond. rewrite Hc.
  destruct c; reflexivity.
Qed.

(** X8.  With an aware logical date, a task end date that is absent or
    aware, and a naive DAG end date, a call yields the statuses of the
    future-date and task end-date checks whose conditions hold and then
    raises [TypeError]. *)
Theorem naive_dag_end_date_raises_last (e : datetime) :
  is_aware L = true ->
  aware_opt (BaseOperator.end_date task) = true ->
  dag_end_date task = Some e ->
  is_aware e = false ->
  r = Gen.mk_run (future_part L C ++ task_end_part L task)%list
                 (inl (TypeError naive_aware_msg)).
Proof.
  intros Haw Hend He Hnaive.
  assert (Hm : mismatch L e = true)
    by (rewrite mismatch_aware, Hnaive by exact Haw; reflexivity).
  assert (HmC : mismatch L C = false)
    by (unfold C; rewrite mismatch_utcnow, Haw; reflexivity).
  destruct (gt_no_mismatch _ _ HmC) as [c Hc].
  pose proof (run_checks clock ti session dep_context dr L Hrun Hdate) as Hr.
  fold C task r in Hr. rewrite Hr.
  rewrite check_future_run, check_task_end_run, check_dag_end_run, He,
    (gt_mismatch _ _ Hm), Hc.
  unfold future_part, task_end_part, future_cond. rewrite Hc.
  destruct (BaseOperator.end_date task) as [e'|]; cbn [aware_opt] in Hend.
  - assert (Hm' : mismatch L e' = false)
      by (rewrite mismatch_aware, Hend by exact Haw; reflexivity).
    destruct (gt_no_mismatch _ _ Hm') as [c' Hc']. rewrite Hc'.
    destruct c, c'; reflexivity.
  - destruct c; reflexivity.
Qed.

(** X9.  The bounds are inclusive: a task end date equal to the logical
    date gives no task end-date status, a DAG end date equal to the logical
    date gives no DAG end-date status, and a clock reading equal to the
    logical date gives no future-date status. *)
Theorem bound_equal_to_logical_date_is_allowed :
  (BaseOperator.end_date task = Some L -> ~ yields_task_end L task r)
  /\ (dag_end_date task = Some L -> ~ yields_dag_end L task r)
  /\ (C = L -> ~ yields_future L C r).
Proof.
  pose proof (yielded_origin clock ti session dep_context dr L Hrun Hdate) as Ho.
  fold C task r in Ho.
  repeat split.
  - intros He (e & He' & Hin). rewrite He in He'. injection He' as <-.
    rewrite <- task_end_status_eq in Hin.
    destruct (Ho _ Hin) as [[_ H] | [(e' & He' & Hgt & _) | (e' & _ & _ & H)]].
    + apply status_reason_inj in H. symmetry in H.
      exact (future_task_reason_neq _ _ _ _ H).
    + rewrite He in He'. injection He' as <-. rewrite gt_irrefl in Hgt.
      discriminate Hgt.
    + apply status_reason_inj in H. exact (task_dag_reason_neq _ _ _ H).
  - intros He (d & e & Hd & Hde & Hin).
    assert (He' : dag_end_date task = Some e)
      by (unfold dag_end_date; now rewrite Hd).
    rewrite He in He'. injection He' as <-.
    rewrite <- dag_end_status_eq in Hin.
    destruct (Ho _ Hin) as [[_ H] | [(e' & _ & _ & H) | (e' & He' & Hgt & _)]].
    + apply status_reason_inj in H. symmetry in H.
      exact (future_dag_reason_neq _ _ _ _ H).
    + apply status_reason_inj in H. symmetry in H.
      exact (task_dag_reason_neq _ _ _ H).
    + rewrite He in He'. injection He' as <-. rewrite gt_irrefl in Hgt.
      discriminate Hgt.
  - intros HC Hin. unfold yields_future in Hin.
    rewrite <- future_status_eq in Hin.
    destruct (Ho _ Hin) as [[Hgt _] | [(e' & _ & _ & H) | (e' & _ & _ & H)]].
    + rewrite HC, gt_irrefl in Hgt. discriminate Hgt.
    + apply status_reason_inj in H. exact (future_task_reason_neq _ _ _ _ H).
    + apply status_reason_inj in H. exact (future_dag_reason_neq _ _ _ _ H).
Qed.

End Edge.

(** Witnesses of the properties above, on the concrete inputs. *)

Lemma statuses_follow_check_order_witness :
  let L := Examples.aware 2023 1 1 in
  let C := utcnow Examples.all_three_clock in
  let r := _get_dep_statuses Examples.all_three_clock
             (Examples.ti_of Examples.naive_task_end_task)
             (Examples.session_of (Some L)) Examples.ctx in
  let r' := _get_dep_statuses Examples.all_three_clock
              (Examples.ti_of Examples.all_three_task)
              (Examples.session_of (Some L)) Examples.ctx in
  Gen.yielded r = [future_status L C]
  /\ Gen.yielded r'
     = [future_status L C; task_end_status L (Examples.aware 2021 1 1);
        dag_end_status L (Examples.aware 2020 1 1)].
Proof.
  destruct (statuses_follow_check_order
              Examples.all_three_clock (Examples.ti_of Examples.naive_task_end_task)
              (Examples.session_of (Some (Examples.aware 2023 1 1))) Examples.ctx
              (Examples.run_of (Some (Examples.aware 2023 1 1)))
              (Examples.aware 2023 1 1) eq_refl eq_refl) as (Hcut & _ & _).
  destruct (statuses_follow_check_order
              Examples.all_three_clock (Examples.ti_of Examples.all_three_task)
              (Examples.session_of (Some (Examples.aware 2023 1 1))) Examples.ctx
              (Examples.run_of (Some (Examples.aware 2023 1 1)))
              (Examples.aware 2023 1 1) eq_refl eq_refl) as (_ & Hall & _).
  split; [exact Hcut | exact (Hall eq_refl)].
Defined.

Lemma statuses_are_distinct_witness :
  NoDup (Gen.yielded
           (_get_dep_statuses Examples.all_three_clock
              (Examples.ti_of Examples.all_three_task)
              (Examples.session_of (Some (Examples.aware 2023 1 1)))
              Examples.ctx)).
Proof.
  exact (statuses_are_distinct
           Examples.all_three_clock (Examples.ti_of Examples.all_three_task)
           (Examples.session_of (Some (Examples.aware 2023 1 1))) Examples.ctx
           (Examples.run_of (Some (Examples.aware 2023 1 1)))
           (Examples.aware 2023 1 1) eq_refl eq_refl).
Defined.

Lemma call_returns_iff_all_aware_witness :
  Gen.outcome
    (_get_dep_statuses Examples.all_three_clock
       (Examples.ti_of Examples.all_three_task)
       (Examples.session_of (Some (Examples.aware 2023 1 1))) Examples.ctx)
  = inr tt
  /\ Gen.outcome
       (_get_dep_statuses Examples.all_three_clock
          (Examples.ti_of Examples.naive_dag_end_task)
          (Examples.session_of (Some (Examples.aware 2023 1 1))) Examples.ctx)
     = inl (TypeError naive_aware_msg).
Proof.
  split.
  - exact (call_returns_iff_all_aware
             Examples.all_three_clock (Examples.ti_of Examples.all_three_task)
             (Examples.session_of (Some (Examples.aware 2023 1 1))) Examples.ctx
             (Examples.run_of (Some (Examples.aware 2023 1 1)))
             (Examples.aware 2023 1 1) eq_refl eq_refl).
  - exact (call_returns_iff_all_aware
             Examples.all_three_clock (Examples.ti_of Examples.naive_dag_end_task)
             (Examples.session_of (Some (Examples.aware 2023 1 1))) Examples.ctx
             (Examples.run_of (Some (Examples.aware 2023 1 1)))
             (Examples.aware 2023 1 1) eq_refl eq_refl).
Defined.

Lemma satisfied_iff_within_all_bounds_witness :
  _get_dep_statuses Examples.scenario2_clock
    (Examples.ti_of Examples.scenario2_task)
    (Examples.session_of (Some (Examples.aware 2021 7 1))) Examples.ctx
  = Gen.mk_run [] (inr tt).
Proof.
  apply (satisfied_iff_within_all_bounds
           Examples.scenario2_clock (Examples.ti_of Examples.scenario2_task)
           (Examples.session_of (Some (Examples.aware 2021 7 1))) Examples.ctx
           (Examples.run_of (Some (Examples.aware 2021 7 1)))
           (Examples.aware 2021 7 1) eq_refl eq_refl).
  split; [reflexivity |]. split; [reflexivity | exact I].
Defined.

Lemma naive_logical_date_raises_at_once_witness :
  _get_dep_statuses Examples.all_three_clock
    (Examples.ti_of Examples.all_three_task)
    (Examples.session_of (Some (Examples.naive 2023 1 1))) Examples.ctx
  = Gen.mk_run [] (inl (TypeError naive_aware_msg)).
Proof.
  exact (naive_logical_date_raises_at_once
           Examples.all_three_clock (Examples.ti_of Examples.all_three_task)
           (Examples.session_of (Some (Examples.naive 2023 1 1))) Examples.ctx
           (Examples.run_of (Some (Examples.naive 2023 1 1)))
           (Examples.naive 2023 1 1) eq_refl eq_refl eq_refl).
Defined.

Lemma naive_task_end_date_stops_the_call_witness :
  let L := Examples.aware 2023 1 1 in
  _get_dep_statuses Examples.all_three_clock
    (Examples.ti_of Examples.naive_task_end_task)
    (Examples.session_of (Some L)) Examples.ctx
  = Gen.mk_run [future_status L (utcnow Examples.all_three_clock)]
               (inl (TypeError naive_aware_msg)).
Proof.
  exact (naive_task_end_date_stops_the_call
           Examples.all_three_clock (Examples.ti_of Examples.naive_task_end_task)
           (Examples.session_of (Some (Examples.aware 2023 1 1))) Examples.ctx
           (Examples.run_of (Some (Examples.aware 2023 1 1)))
           (Examples.aware 2023 1 1) eq_refl eq_refl
           (Examples.naive 2022 1 1) eq_refl eq_refl eq_refl).
Defined.

Lemma naive_dag_end_date_raises_last_witness :
  let L := Examples.aware 2023 1 1 in
  let task := BaseOperator.mk "load" (Some (Examples.aware 2022 1 1))
                (Some (DAG.mk "etl" (Some (Examples.naive 2022 1 1)))) in
  _get_dep_statuses Examples.all_three_clock (Examples.ti_of task)
    (Examples.session_of (Some L)) Examples.ctx
  = Gen.mk_run [future_status L (utcnow Examples.all_three_clock);
                task_end_status L (Examples.aware 2022 1 1)]
               (inl (TypeError naive_aware_msg)).
Proof.
  exact (naive_dag_end_date_raises_last
           Examples.all_three_clock
           (Examples.ti_of
              (BaseOperator.mk "load" (Some (Examples.aware 2022 1 1))
                 (Some (DAG.mk "etl" (Some (Examples.naive 2022 1 1))))))
           (Examples.session_of (Some (Examples.aware 2023 1 1))) Examples.ctx
           (Examples.run_of (Some (Examples.aware 2023 1 1)))
           (Examples.aware 2023 1 1) eq_refl eq_refl
           (Examples.naive 2022 1 1) eq_refl eq_refl eq_refl eq_refl).
Defined.

Lemma bound_equal_to_logical_date_is_allowed_witness :
  let L := Examples.aware 2022 1 1 in
  ~ yields_task_end L Examples.scenario2_task
      (_get_dep_statuses Examples.scenario2_clock
         (Examples.ti_of Examples.scenario2_task)
         (Examples.session_of (Some L)) Examples.ctx).
Proof.
  destruct (bound_equal_to_logical_date_is_allowed
              Examples.scenario2_clock (Examples.ti_of Examples.scenario2_task)
              (Examples.session_of (Some (Examples.aware 2022 1 1))) Examples.ctx
              (Examples.run_of (Some (Examples.aware 2022 1 1)))
              (Examples.aware 2022 1 1) eq_refl eq_refl) as (Htask & _ & _).
  exact (Htask eq_refl).
Defined.

(** *** The reasons as texts *)

Lemma no_space_append (a b : string) :
  no_space (a ++ b) = no_space a && no_space b.
Proof.
  induction a as [|c a IH]; cbn [append no_space]; [reflexivity |].
  rewrite IH. now rewrite andb_assoc.
Qed.

Lemma no_space_all_digits (s : string) : all_digits s = true -> no_space s = true.
Proof.
  induction s as [|c s IH]; cbn [all_digits no_space]; [reflexivity |].
  intros H. apply andb_prop in H as [Hc Hs]. rewrite (IH Hs), andb_true_r.
  destruct (Ascii.eqb_spec c " ") as [-> | _]; [discriminate Hc | reflexivity].
Qed.

Lemma no_space_zeros (k : nat) : no_space (zeros k) = true.
Proof. induction k; cbn [zeros no_space]; [reflexivity | exact IHk]. Qed.

Lemma digits_all_digits (n : Z) : 0 <= n -> all_digits (digits n) = true.
Proof.
  intros Hn. unfold digits.
  assert (Hf : 0 <= n < 2 ^ Z.of_nat (S (Z.to_nat (Z.log2 n)))).
  { split; [lia |].
    rewrite Nat2Z.inj_succ, Z2Nat.id by apply Z.log2_nonneg.
    destruct (Z.eq_dec n 0) as [Hz | Hz].
    - subst n. reflexivity.
    - apply Z.log2_spec. lia. }
  destruct (digits_fuel_spec _ n "" Hf) as (ds & Hds & Hall & _).
  now rewrite Hds, append_nil_r.
Qed.

Lemma no_space_fmt_d (w : nat) (n : Z) : no_space (fmt_d w n) = true.
Proof.
  unfold fmt_d. destruct (Z.ltb_spec n 0) as [Hneg | Hpos].
  - cbn [no_space]. rewrite no_space_append, no_space_zeros.
    rewrite no_space_all_digits by (apply digits_all_digits; lia). reflexivity.
  - rewrite no_space_append, no_space_zeros.
    now rewrite no_space_all_digits by (apply digits_all_digits; lia).
Qed.

(** [isoformat] never writes a space, whatever the datetime. *)
Lemma no_space_isoformat (d : datetime) : no_space (isoformat d) = true.
Proof.
  unfold isoformat, _format_time, _format_offset.
  destruct (microsecond d =? 0); destruct (utcoffset d) as [o|];
    try destruct (o <? 0);
    repeat match goal with
      | |- context [if ?b then _ else _] => destruct b
      end;
    repeat (rewrite ?no_space_append, ?no_space_fmt_d; cbn [no_space andb]);
    reflexivity.
Qed.

Lemma split_at_space (X X' R R' : string) :
  no_space X = true -> no_space X' = true ->
  X ++ String " " R = X' ++ String " " R' -> X = X' /\ R = R'.
Proof.
  revert X'. induction X as [|c X IH]; intros [|c' X'];
    cbn [append no_space]; intros HX HX' H.
  - injection H as ->. now split.
  - injection H as <- _. discriminate HX'.
  - injection H as -> _. discriminate HX.
  - injection H as <- H.
    apply andb_prop in HX as [_ HX]. apply andb_prop in HX' as [_ HX'].
    destruct (IH X' HX HX' H) as [-> ->]. now split.
Qed.

Lemma append_inv_tail (a b c : string) : a ++ c = b ++ c -> a = b.
Proof.
  revert b. induction a as [|x a IH]; intros [|y b]; cbn [append]; intros H.
  - reflexivity.
  - exfalso. apply (f_equal String.length) in H.
    cbn [String.length] in H. rewrite length_append in H. lia.
  - exfalso. apply (f_equal String.length) in H.
    cbn [String.length] in H. rewrite length_append in H. lia.
  - injection H as -> H. now rewrite (IH b H).
Qed.

(** A sentence [a ++ X ++ " " ++ m ++ Y ++ z], with [X] free of spaces,
    determines [X] and [Y]. *)
Lemma sentence_inj (a m z X Y X' Y' : string) :
  no_space X = true -> no_space X' = true ->
  a ++ X ++ String " " (m ++ Y ++ z) = a ++ X' ++ String " " (m ++ Y' ++ z) ->
  X = X' /\ Y = Y'.
Proof.
  intros HX HX' H. apply append_inv_head in H.
  destruct (split_at_space _ _ _ _ HX HX' H) as [-> H'].
  apply append_inv_head in H'. apply append_inv_tail in H'. now split.
Qed.

(** X10.  A reason tells which check produced it and which timestamps it
    cites: two reasons of the same check are equal only if they cite the
    same ISO texts, and reasons of different checks are never equal,
    whatever the timestamps. *)
Theorem reason_identifies_check_and_timestamps
    (L C L' C' e e' : datetime) :
  (future_reason L C = future_reason L' C' ->
   isoformat L = isoformat L' /\ isoformat C = isoformat C')
  /\ (task_end_reason L e = task_end_reason L' e' ->
      isoformat L = isoformat L' /\ isoformat e = isoformat e')
  /\ (dag_end_reason L e = dag_end_reason L' e' ->
      isoformat L = isoformat L' /\ isoformat e = isoformat e')
  /\ future_reason L C <> task_end_reason L' e
  /\ future_reason L C <> dag_end_reason L' e
  /\ task_end_reason L e <> dag_end_reason L' e'.
Proof.
  pose proof (no_space_isoformat L) as HL.
  pose proof (no_space_isoformat L') as HL'.
  split; [| split; [| split; [| split; [| split]]]].
  - intros H.
    exact (sentence_inj "Logical date " "is in the future (the current date is "
             ")." _ _ _ _ HL HL' H).
  - intros H.
    exact (sentence_inj "The logical date is "
             "but this is after the task's end date " "." _ _ _ _ HL HL' H).
  - intros H.
    exact (sentence_inj "The logical date is "
             "but this is after the task's DAG's end date " "." _ _ _ _ HL HL' H).
  - apply future_task_reason_neq.
  - apply future_dag_reason_neq.
  - unfold task_end_reason, dag_end_reason. intros H.
    apply (append_inv_head "The logical date is ") in H.
    change (isoformat L ++ String " " ("but this is after the task's end date "
                                       ++ isoformat e ++ ".")
            = isoformat L' ++ String " " ("but this is after the task's DAG's end date "
                                          ++ isoformat e' ++ ".")) in H.
    destruct (split_at_space _ _ _ _ HL HL' H) as [_ H'].
    apply (append_inv_head "but this is after the task's ") in H'.
    cbn [append] in H'. discriminate H'.
Qed.

(** *** Datetimes as instants *)

Section Calendar.

Lemma days_before_year_succ (y : Z) :
  _days_before_year (y + 1)
  = _days_before_year y + 365 + (if _is_leap y then 1 else 0).
Proof.
  unfold _days_before_year, _is_leap.
  replace (y + 1 - 1) with y by lia.
  destruct (Z.eqb_spec (y mod 4) 0) as [H4 | H4];
    destruct (Z.eqb_spec (y mod 100) 0) as [H100 | H100];
    destruct (Z.eqb_spec (y mod 400) 0) as [H400 | H400];
    cbn [negb andb orb];
    Z.div_mod_to_equations; lia.
Qed.

Lemma days_before_year_mono (y y' : Z) :
  y <= y' -> _days_before_year y <= _days_before_year y'.
Proof.
  unfold _days_before_year. intros H. Z.div_mod_to_equations. lia.
Qed.

Lemma month_cases (m : Z) :
  1 <= m <= 12 ->
  m = 1 \/ m = 2 \/ m = 3 \/ m = 4 \/ m = 5 \/ m = 6 \/ m = 7 \/ m = 8
  \/ m = 9 \/ m = 10 \/ m = 11 \/ m = 12.
Proof. lia. Qed.

Ltac table_values :=
  repeat match goal with
    | |- context [nth ?n ?l ?d] =>
        let v := eval vm_compute in (nth n l d) in
        change (nth n l d) with v
    | |- context [if ?b then ?x else ?y] =>
        let v := eval vm_compute in (if b then x else y) in
        change (if b then x else y) with v
    end.

Ltac each_month H :=
  apply month_cases in H;
  repeat (destruct H as [H | H]); subst.

(** The day of the year lies within the year. *)
Lemma day_of_year_bounds (y m d : Z) :
  1 <= m <= 12 -> 1 <= d <= _days_in_month y m ->
  1 <= _days_before_month y m + d <= 365 + (if _is_leap y then 1 else 0).
Proof.
  intros Hm. each_month Hm; unfold _days_before_month, _days_in_month;
    destruct (_is_leap y); table_values; intros Hd; lia.
Qed.

(** Within a year, a later month gives a later day of the year. *)
Lemma day_of_year_month_lt (y m d m' d' : Z) :
  1 <= m <= 12 -> 1 <= m' <= 12 -> m < m' ->
  d <= _days_in_month y m -> 1 <= d' ->
  _days_before_month y m + d < _days_before_month y m' + d'.
Proof.
  intros Hm Hm'. each_month Hm; each_month Hm'; intros Hlt; try lia;
    unfold _days_before_month, _days_in_month;
    destruct (_is_leap y); table_values; intros Hd Hd'; lia.
Qed.

Lemma ymd2ord_year_lt (y m d y' m' d' : Z) :
  1 <= m <= 12 -> 1 <= d <= _days_in_month y m ->
  1 <= m' <= 12 -> 1 <= d' <= _days_in_month y' m' ->
  y < y' -> _ymd2ord y m d < _ymd2ord y' m' d'.
Proof.
  intros Hm Hd Hm' Hd' Hy. unfold _ymd2ord.
  pose proof (day_of_year_bounds y m d Hm Hd).
  pose proof (day_of_year_bounds y' m' d' Hm' Hd').
  pose proof (days_before_year_succ y).
  pose proof (days_before_year_mono (y + 1) y' ltac:(lia)).
  lia.
Qed.

End Calendar.

Section Instants.

(** The order of the field tuples is the order of the wall instants. *)
Lemma tuple_cmp_wall_instant (a b : datetime) :
  well_formed a -> well_formed b ->
  (tuple_cmp (fields a) (fields b) = -1 /\ wall_instant a < wall_instant b)
  \/ (tuple_cmp (fields a) (fields b) = 0 /\ wall_instant a = wall_instant b)
  \/ (tuple_cmp (fields a) (fields b) = 1 /\ wall_instant b < wall_instant a).
Proof.
  intros [(Hy & Hm & Hd & Hh & Hmi & Hs & Hus & _) Hdim]
         [(Hy' & Hm' & Hd' & Hh' & Hmi' & Hs' & Hus' & _) Hdim'].
  assert (Hyab : year a < year b -> toordinal a < toordinal b)
    by (intros ?; apply ymd2ord_year_lt; lia).
  assert (Hyba : year b < year a -> toordinal b < toordinal a)
    by (intros ?; apply ymd2ord_year_lt; lia).
  assert (Hmab : year a = year b -> month a < month b ->
                 toordinal a < toordinal b).
  { intros Hyy Hlt. unfold toordinal, _ymd2ord. rewrite Hyy in *.
    pose proof (day_of_year_month_lt (year b) (month a) (day a) (month b) (day b)).
    lia. }
  assert (Hmba : year a = year b -> month b < month a ->
                 toordinal b < toordinal a).
  { intros Hyy Hlt. unfold toordinal, _ymd2ord. rewrite Hyy in *.
    pose proof (day_of_year_month_lt (year b) (month b) (day b) (month a) (day a)).
    lia. }
  assert (Hdab : year a = year b -> month a = month b ->
                 toordinal a - toordinal b = day a - day b).
  { intros Hyy Hmm. unfold toordinal, _ymd2ord. rewrite Hyy, Hmm. lia. }
  unfold fields, wall_instant. cbn [tuple_cmp].
  repeat match goal with
    | |- context [?x <? ?y] => destruct (Z.ltb_spec x y)
    end;
    first [ left; split; [reflexivity | lia]
          | right; left; split; [reflexivity | lia]
          | right; right; split; [reflexivity | lia] ].
Qed.

Lemma sub_base_wall_instant (a b : datetime) :
  sub_base a b = wall_instant a - wall_instant b.
Proof. unfold sub_base, wall_instant. lia. Qed.

(** Between two aware datetimes, [>] compares the instants in UTC, provided
    the two do not carry one zone object at two different offsets: in that
    case [>] compares the fields. *)
Lemma gt_utc_instant (a b : datetime) :
  well_formed a -> well_formed b ->
  is_aware a = true -> is_aware b = true ->
  coherent a b ->
  gt a b = inr (utc_instant b <? utc_instant a).
Proof.
  intros Ha Hb Hawa Hawb Hco.
  destruct (tuple_cmp_wall_instant a b Ha Hb) as [[Hc Hw] | [[Hc Hw] | [Hc Hw]]];
    unfold gt, _cmp, utc_instant, is_aware, coherent, utcoffset in *;
    destruct (dt_tzinfo a) as [ta|]; try discriminate Hawa;
    destruct (dt_tzinfo b) as [tb|]; try discriminate Hawb;
    cbn [option_map offset_eqb] in *;
    rewrite sub_base_wall_instant, Hc;
    (destruct (tzinfo_is (Some ta) (Some tb));
     [ specialize (Hco eq_refl); injection Hco as Hco; rewrite Hco
     | destruct (Z.eqb_spec (tz_utcoffset ta) (tz_utcoffset tb)) ]);
    cbv iota;
    repeat match goal with
      | |- context [?x <? ?y] => destruct (Z.ltb_spec x y)
      | |- context [?x =? ?y] => destruct (Z.eqb_spec x y)
      end; try reflexivity; lia.
Qed.

(** With one zone object at two offsets, [>] compares the fields. *)
Lemma gt_shared_zone (a b : datetime) :
  well_formed a -> well_formed b ->
  tzinfo_is (dt_tzinfo a) (dt_tzinfo b) = true ->
  gt a b = inr (wall_instant b <? wall_instant a).
Proof.
  intros Ha Hb Hsame.
  destruct (tuple_cmp_wall_instant a b Ha Hb) as [[Hc Hw] | [[Hc Hw] | [Hc Hw]]];
    unfold gt, _cmp; rewrite Hsame, Hc; cbv iota;
    destruct (Z.ltb_spec (wall_instant b) (wall_instant a));
    try reflexivity; lia.
Qed.

Lemma well_formed_utcnow (clock : Clock) : well_formed clock -> well_formed (utcnow clock).
Proof.
  intros [Hv Hd]. split; [now apply valid_utcnow | exact Hd].
Qed.

(** The UTC clock reading is coherent with every datetime: only a datetime
    in the UTC zone itself shares its zone object. *)
Lemma coherent_utcnow (L : datetime) (clock : Clock) : coherent L (utcnow clock).
Proof.
  unfold coherent, utcoffset, utcnow, replace_tzinfo. cbn [dt_tzinfo].
  destruct (dt_tzinfo L) as [[|i n o]|]; cbn [tzinfo_is option_map];
    intros H; try discriminate H; reflexivity.
Qed.

End Instants.

Lemma holds_gt_utc_instant (a b : datetime) :
  well_formed a -> well_formed b ->
  is_aware a = true -> is_aware b = true -> coherent a b ->
  holds (gt a b) = (utc_instant b <? utc_instant a).
Proof.
  intros Ha Hb Hawa Hawb Hco. rewrite (gt_utc_instant a b Ha Hb Hawa Hawb Hco).
  cbn [holds]. now destruct (utc_instant b <? utc_instant a).
Qed.

Lemma future_cond_utc_instant (L : datetime) (clock : Clock) :
  well_formed L -> is_aware L = true -> well_formed clock ->
  future_cond L (utcnow clock)
  = (utc_instant (utcnow clock) <? utc_instant L).
Proof.
  intros HL Haw Hclock. unfold future_cond.
  apply holds_gt_utc_instant; try assumption.
  - now apply well_formed_utcnow.
  - apply is_aware_utcnow.
  - apply coherent_utcnow.
Qed.

Lemma cond_before (L : datetime) (bound : option datetime) :
  well_formed L -> is_aware L = true -> aware_bound bound ->
  coherent_bound L bound ->
  match bound with
  | Some e => holds (gt L e)
  | None => false
  end = before bound L.
Proof.
  intros HL Haw Hb Hco. destruct bound as [e|]; [| reflexivity].
  destruct Hb as [Hawe He]. cbn [before coherent_bound] in *.
  now apply holds_gt_utc_instant.
Qed.

Lemma aware_bound_no_mismatch (L : datetime) (bound : option datetime) :
  is_aware L = true -> aware_bound bound -> mismatch_opt L bound = false.
Proof.
  intros Haw Hb. destruct bound as [e|]; [| reflexivity].
  destruct Hb as [Hawe _]. cbn [mismatch_opt].
  now rewrite mismatch_aware, Hawe by exact Haw.
Qed.

Lemma expected_statuses_parts (L C : datetime) (task : BaseOperator.t) :
  expected_statuses L C task
  = (future_part L C ++ task_end_part L task ++ dag_end_part L task)%list.
Proof. reflexivity. Qed.

Section Time.
Variables (ti : TaskInstance.t) (dep_context : DepContext).

Let task := TaskInstance.task ti.

Hypothesis Htask_end : aware_bound (BaseOperator.end_date task).
Hypothesis Hdag_end : aware_bound (dag_end_date task).

(** With aware, well-formed timestamps throughout, a call returns, its
    statuses are one per condition that holds, and the condition of the
    future-date check is a comparison of instants. *)
Lemma run_aware (clock : Clock) (session : Session) (dr : DagRun.t)
    (L : datetime) :
  get_dagrun ti session = inr dr ->
  DagRun.logical_date dr = Some L ->
  well_formed L -> is_aware L = true -> well_formed clock ->
  let C := utcnow clock in
  let r := _get_dep_statuses clock ti session dep_context in
  Gen.outcome r = inr tt
  /\ Gen.yielded r = expected_statuses L C task
  /\ future_cond L C = (utc_instant C <? utc_instant L).
Proof.
  intros Hrun Hdate HL Haw Hclock C r.
  assert (Hout : Gen.outcome r = inr tt).
  { apply (run_returns_iff clock ti session dep_context dr L Hrun Hdate).
    fold task. split; [exact Haw |].
    split; now apply aware_bound_no_mismatch. }
  split; [exact Hout |]. split.
  - exact (run_returns clock ti session dep_context dr L Hrun Hdate Hout).
  - now apply future_cond_utc_instant.
Qed.

(** When, besides, the logical date is coherent with the two end dates,
    their conditions are comparisons of instants too. *)
Lemma run_by_instants (clock : Clock) (session : Session) (dr : DagRun.t)
    (L : datetime) :
  get_dagrun ti session = inr dr ->
  DagRun.logical_date dr = Some L ->
  well_formed L -> is_aware L = true -> well_formed clock ->
  coherent_bound L (BaseOperator.end_date task) ->
  coherent_bound L (dag_end_date task) ->
  let C := utcnow clock in
  let r := _get_dep_statuses clock ti session dep_context in
  Gen.outcome r = inr tt
  /\ Gen.yielded r = expected_statuses L C task
  /\ future_cond L C = (utc_instant C <? utc_instant L)
  /\ task_end_cond L task = before (BaseOperator.end_date task) L
  /\ dag_end_cond L task = before (dag_end_date task) L.
Proof.
  intros Hrun Hdate HL Haw Hclock Hct Hcd C r.
  destruct (run_aware clock session dr L Hrun Hdate HL Haw Hclock)
    as (Hout & Hy & Hf).
  split; [exact Hout |]. split; [exact Hy |]. split; [exact Hf |]. split.
  - unfold task_end_cond. now apply cond_before.
  - unfold dag_end_cond. now apply cond_before.
Qed.

(** X11.  When the logical date, the task's end date and the DAG's end date
    are timezone-aware and well-formed, and the logical date does not carry
    the zone object of an end date at a different offset (as with UTC or
    any fixed-offset zone), a call returns and yields one status per bound
    that is a strictly earlier instant than the logical date, in the order
    clock reading, task end date, DAG end date: the timestamps are compared
    as instants in UTC. *)
Theorem statuses_compare_utc_instants (clock : Clock) (session : Session)
    (dr : DagRun.t) (L : datetime) :
  get_dagrun ti session = inr dr ->
  DagRun.logical_date dr = Some L ->
  well_formed L -> is_aware L = true -> well_formed clock ->
  coherent_bound L (BaseOperator.end_date task) ->
  coherent_bound L (dag_end_date task) ->
  _get_dep_statuses clock ti session dep_context
  = Gen.mk_run (statuses_by_instant L (utcnow clock) task) (inr tt).
Proof.
  intros Hrun Hdate HL Haw Hclock Hct Hcd.
  destruct (run_by_instants clock session dr L Hrun Hdate HL Haw Hclock Hct Hcd)
    as (Hout & Hy & Hf & Ht & Hd).
  rewrite <- (run_eta (_get_dep_statuses clock ti session dep_context)).
  rewrite Hout, Hy. f_equal.
  unfold expected_statuses, statuses_by_instant.
  rewrite Hf. unfold task_end_cond, dag_end_cond, before in Ht, Hd.
  fold task.
  destruct (BaseOperator.end_date task) as [e|];
    destruct (dag_end_date task) as [e'|];
    rewrite ?Ht, ?Hd; reflexivity.
Qed.

(** X12.  Re-evaluating at a later clock reading can only clear the
    future-date status: the statuses of the two end-date checks are the
    same at both readings, and if the future-date check fires at the later
    reading it fires at the earlier one too. *)
Theorem later_clock_only_clears_future_status (clock1 clock2 : Clock)
    (session : Session) (dr : DagRun.t) (L : datetime) :
  get_dagrun ti session = inr dr ->
  DagRun.logical_date dr = Some L ->
  well_formed L -> is_aware L = true ->
  well_formed clock1 -> well_formed clock2 ->
  utc_instant (utcnow clock1) <= utc_instant (utcnow clock2) ->
  let r1 := _get_dep_statuses clock1 ti session dep_context in
  let r2 := _get_dep_statuses clock2 ti session dep_context in
  let later := (task_end_part L task ++ dag_end_part L task)%list in
  Gen.yielded r1 = (future_part L (utcnow clock1) ++ later)%list
  /\ Gen.yielded r2 = (future_part L (utcnow clock2) ++ later)%list
  /\ (future_cond L (utcnow clock2) = true -> future_cond L (utcnow clock1) = true)
  /\ (List.length (Gen.yielded r2) <= List.length (Gen.yielded r1))%nat.
Proof.
  intros Hrun Hdate HL Haw Hc1 Hc2 Hle r1 r2 later.
  destruct (run_aware clock1 session dr L Hrun Hdate HL Haw Hc1)
    as (_ & Hy1 & Hf1).
  destruct (run_aware clock2 session dr L Hrun Hdate HL Haw Hc2)
    as (_ & Hy2 & Hf2).
  fold r1 in Hy1. fold r2 in Hy2.
  rewrite expected_statuses_parts in Hy1, Hy2.
  assert (Hmono : future_cond L (utcnow clock2) = true ->
                  future_cond L (utcnow clock1) = true).
  { rewrite Hf1, Hf2. intros H. apply Z.ltb_lt in H. apply Z.ltb_lt. lia. }
  split; [exact Hy1 |]. split; [exact Hy2 |]. split; [exact Hmono |].
  rewrite Hy1, Hy2, !length_app. unfold future_part.
  destruct (future_cond L (utcnow clock2)).
  - rewrite (Hmono eq_refl). cbn [List.length]. lia.
  - destruct (future_cond L (utcnow clock1)); cbn [List.length]; lia.
Qed.


(** X14.  The zone the logical date is written in does not matter, as long
    as it is not the zone object of an end date at a different offset: two
    logical dates that are the same instant make the same checks fire, and
    the two calls yield the same number of statuses. *)
Theorem same_instant_same_checks (clock : Clock)
    (session session' : Session) (dr dr' : DagRun.t) (L L' : datetime) :
  get_dagrun ti session = inr dr ->
  DagRun.logical_date dr = Some L ->
  get_dagrun ti session' = inr dr' ->
  DagRun.logical_date dr' = Some L' ->
  well_formed L -> is_aware L = true ->
  well_formed L' -> is_aware L' = true ->
  well_formed clock ->
  coherent_bound L (BaseOperator.end_date task) ->
  coherent_bound L (dag_end_date task) ->
  coherent_bound L' (BaseOperator.end_date task) ->
  coherent_bound L' (dag_end_date task) ->
  utc_instant L = utc_instant L' ->
  let C := utcnow clock in
  let r := _get_dep_statuses clock ti session dep_context in
  let r' := _get_dep_statuses clock ti session' dep_context in
  future_cond L C = future_cond L' C
  /\ task_end_cond L task = task_end_cond L' task
  /\ dag_end_cond L task = dag_end_cond L' task
  /\ List.length (Gen.yielded r) = List.length (Gen.yielded r')
  /\ Gen.outcome r = Gen.outcome r'.
Proof.
  intros Hrun Hdate Hrun' Hdate' HL Haw HL' Haw' Hclock Hct Hcd Hct' Hcd' Heq
         C r r'.
  destruct (run_by_instants clock session dr L Hrun Hdate HL Haw Hclock Hct Hcd)
    as (Ho & Hy & Hf & Ht & Hd).
  destruct (run_by_instants clock session' dr' L' Hrun' Hdate' HL' Haw' Hclock
              Hct' Hcd')
    as (Ho' & Hy' & Hf' & Ht' & Hd').
  fold C r in Ho, Hy, Hf. fold C r' in Ho', Hy', Hf'.
  assert (H1 : future_cond L C = future_cond L' C)
    by (rewrite Hf, Hf', Heq; reflexivity).
  assert (H2 : task_end_cond L task = task_end_cond L' task)
    by (rewrite Ht, Ht'; unfold before; now rewrite Heq).
  assert (H3 : dag_end_cond L task = dag_end_cond L' task)
    by (rewrite Hd, Hd'; unfold before; now rewrite Heq).
  split; [exact H1 |]. split; [exact H2 |]. split; [exact H3 |]. split.
  - rewrite Hy, Hy', !expected_statuses_length. unfold conditions_holding.
    rewrite H1, H2, H3. reflexivity.
  - rewrite Ho, Ho'. reflexivity.
Qed.

End Time.

(** One zone object at two offsets: 02:30 after the end of daylight saving
    time (01:30Z) against 02:45 before it (00:45Z).  The first is the later
    instant, and [>] says it is not after the second. *)
Example gt_shared_zone_compares_fields :
  gt Zones.warsaw_0230_cet Zones.warsaw_0245_cest = inr false
  /\ utc_instant Zones.warsaw_0245_cest < utc_instant Zones.warsaw_0230_cet.
Proof. split; reflexivity. Qed.

(** Well-formedness and coherence on concrete datetimes, by evaluation. *)
Ltac concrete_well_formed :=
  vm_compute; repeat split;
  first [ exact I | reflexivity | (let H := fresh in intro H; discriminate H) ].

Ltac concrete_coherent :=
  vm_compute;
  first [ exact I | (intros _; reflexivity)
        | (let H := fresh in intro H; discriminate H) ].

Lemma statuses_compare_utc_instants_witness :
  let L := Zones.before_new_year_cet in
  _get_dep_statuses Examples.scenario2_clock
    (Examples.ti_of Zones.new_year_eve_task)
    (Examples.session_of (Some L)) Examples.ctx
  = Gen.mk_run [] (inr tt).
Proof.
  assert (Hend : aware_bound (BaseOperator.end_date
                   (TaskInstance.task (Examples.ti_of Zones.new_year_eve_task))))
    by concrete_well_formed.
  assert (Hdag : aware_bound (dag_end_date
                   (TaskInstance.task (Examples.ti_of Zones.new_year_eve_task))))
    by exact I.
  assert (HL : well_formed Zones.before_new_year_cet) by concrete_well_formed.
  assert (HC : well_formed Examples.scenario2_clock) by concrete_well_formed.
  assert (Hct : coherent_bound Zones.before_new_year_cet
                  (BaseOperator.end_date
                     (TaskInstance.task (Examples.ti_of Zones.new_year_eve_task))))
    by concrete_coherent.
  exact (statuses_compare_utc_instants
           (Examples.ti_of Zones.new_year_eve_task) Examples.ctx Hend Hdag
           Examples.scenario2_clock
           (Examples.session_of (Some Zones.before_new_year_cet))
           (Examples.run_of (Some Zones.before_new_year_cet))
           Zones.before_new_year_cet eq_refl eq_refl HL eq_refl HC Hct I).
Defined.

Lemma later_clock_only_clears_future_status_witness :
  let L := Examples.aware 2023 1 1 in
  let ti := Examples.ti_of Examples.all_three_task in
  let session := Examples.session_of (Some L) in
  List.length (Gen.yielded (_get_dep_statuses Examples.all_three_clock ti
                              session Examples.ctx)) = 3%nat
  /\ List.length (Gen.yielded (_get_dep_statuses Examples.scenario2_clock ti
                                 session Examples.ctx)) = 2%nat
  /\ (future_cond L (utcnow Examples.scenario2_clock) = true ->
      future_cond L (utcnow Examples.all_three_clock) = true).
Proof.
  assert (Hend : aware_bound (BaseOperator.end_date
                   (TaskInstance.task (Examples.ti_of Examples.all_three_task))))
    by concrete_well_formed.
  assert (Hdag : aware_bound (dag_end_date
                   (TaskInstance.task (Examples.ti_of Examples.all_three_task))))
    by concrete_well_formed.
  assert (HL : well_formed (Examples.aware 2023 1 1)) by concrete_well_formed.
  assert (HC1 : well_formed Examples.all_three_clock) by concrete_well_formed.
  assert (HC2 : well_formed Examples.scenario2_clock) by concrete_well_formed.
  assert (Hle : utc_instant (utcnow Examples.all_three_clock)
                <= utc_instant (utcnow Examples.scenario2_clock))
    by (vm_compute; intro H; discriminate H).
  destruct (later_clock_only_clears_future_status
              (Examples.ti_of Examples.all_three_task) Examples.ctx Hend Hdag
              Examples.all_three_clock Examples.scenario2_clock
              (Examples.session_of (Some (Examples.aware 2023 1 1)))
              (Examples.run_of (Some (Examples.aware 2023 1 1)))
              (Examples.aware 2023 1 1) eq_refl eq_refl HL eq_refl HC1 HC2 Hle)
    as (Hy1 & Hy2 & Hmono & _).
  split; [rewrite Hy1; reflexivity |].
  split; [rewrite Hy2; reflexivity | exact Hmono].
Defined.


Lemma same_instant_same_checks_witness :
  let L := Examples.aware 2023 1 1 in
  let L' := Zones.new_year_cet in
  let ti := Examples.ti_of Zones.new_year_task in
  isoformat L <> isoformat L'
  /\ task_end_cond L Zones.new_year_task = task_end_cond L' Zones.new_year_task
  /\ List.length (Gen.yielded (_get_dep_statuses Examples.all_three_clock ti
                                 (Examples.session_of (Some L)) Examples.ctx))
     = List.length (Gen.yielded (_get_dep_statuses Examples.all_three_clock ti
                                   (Examples.session_of (Some L')) Examples.ctx)).
Proof.
  assert (Hend : aware_bound (BaseOperator.end_date
                   (TaskInstance.task (Examples.ti_of Zones.new_year_task))))
    by concrete_well_formed.
  assert (Hdag : aware_bound (dag_end_date
                   (TaskInstance.task (Examples.ti_of Zones.new_year_task))))
    by concrete_well_formed.
  assert (HL : well_formed (Examples.aware 2023 1 1)) by concrete_well_formed.
  assert (HL' : well_formed Zones.new_year_cet) by concrete_well_formed.
  assert (HC : well_formed Examples.all_three_clock) by concrete_well_formed.
  assert (Hct : coherent_bound (Examples.aware 2023 1 1)
                  (BaseOperator.end_date
                     (TaskInstance.task (Examples.ti_of Zones.new_year_task))))
    by concrete_coherent.
  assert (Hcd : coherent_bound (Examples.aware 2023 1 1)
                  (dag_end_date
                     (TaskInstance.task (Examples.ti_of Zones.new_year_task))))
    by concrete_coherent.
  assert (Hct' : coherent_bound Zones.new_year_cet
                   (BaseOperator.end_date
                      (TaskInstance.task (Examples.ti_of Zones.new_year_task))))
    by concrete_coherent.
  assert (Hcd' : coherent_bound Zones.new_year_cet
                   (dag_end_date
                      (TaskInstance.task (Examples.ti_of Zones.new_year_task))))
    by concrete_coherent.
  destruct (same_instant_same_checks
              (Examples.ti_of Zones.new_year_task) Examples.ctx Hend Hdag
              Examples.all_three_clock
              (Examples.session_of (Some (Examples.aware 2023 1 1)))
              (Examples.session_of (Some Zones.new_year_cet))
              (Examples.run_of (Some (Examples.aware 2023 1 1)))
              (Examples.run_of (Some Zones.new_year_cet))
              (Examples.aware 2023 1 1) Zones.new_year_cet
              eq_refl eq_refl eq_refl eq_refl HL eq_refl HL' eq_refl HC
              Hct Hcd Hct' Hcd' eq_refl)
    as (_ & Ht & _ & Hlen & _).
  split; [| split; [exact Ht | exact Hlen]].
  vm_compute. intro H. discriminate H.
Defined.
